(** * Startup modes of the ZAP main process

    A shallow embedding of [src-electron/main-process/startup.js]: the four
    start-up pipelines ([startNormal], [startSelfCheck], [startGeneration],
    [startSdkGeneration]) and the maintenance operation [clearDatabaseFile].

    The file system is a finite map from paths to file contents, the promise
    chains are computations in a state-and-exception monad over a [World],
    and every call that leaves the module (file system, console, loggers,
    electron [app], the collaborating modules) is recorded, in program order,
    in the world's [trace]. *)

From stdpp Require Import gmap strings list fin_maps pretty.

Open Scope string_scope.
Open Scope list_scope.

(** ** JavaScript values and objects *)

Module Js.

(** The primitive values that flags and option fields can take. *)
Inductive value :=
| Undefined
| Null
| Bool (b : bool)
| Num (z : Z)
| Str (s : string).

(** ToBoolean. *)
Definition truthy (v : value) : bool :=
  match v with
  | Undefined | Null => false
  | Bool b => b
  | Num z => negb (z =? 0)%Z
  | Str s => negb (String.eqb s "")
  end.

(** An options object: property names to values. *)
Abbreviation object := (gmap string value).

(** Property read [o.k]: a missing property reads as [undefined]. *)
Definition get (o : object) (k : string) : value :=
  default Undefined (o !! k).

End Js.

(** ** Outcomes, handles, events *)

Definition JsError := string.

(** A settled promise, or the result of a synchronous block that may throw. *)
Inductive Outcome (A : Type) :=
| Resolved (a : A)
| Rejected (e : JsError).
Arguments Resolved {A} a.
Arguments Rejected {A} e.

Definition Db := N.
Definition PackageId := N.
Definition SessionId := N.

(** The context object the loaders resolve to: [{ db, packageId }]. *)
Record Ctx := { ctx_db : Db; ctx_packageId : PackageId }.

(** A call that can fail: the file-system mutations and the asynchronous
    collaborator calls, with the arguments startup.js passes.  [InitDatabase]
    additionally remembers what was on disk at the path when the open was
    issued. *)
Inductive Stage :=
| UnlinkSync (path : string)
| RenameSync (from to : string)
| InitDatabase (path : string) (onDisk : option string)
| ResolveMainDatabase (db : Db)
| LoadSchema (db : Db) (schema version : string)
| LoadZcl (db : Db) (path : string)
| LoadTemplates (db : Db) (path : string)
| InitHttpServer (db : Db) (port : N)
| CreateBlankSession (db : option Db)
| InitializeSessionPackage (db : option Db) (sessionId : SessionId)
| GenerateAndWriteFiles (db : option Db) (sessionId : SessionId)
    (packageId : PackageId) (output : string) (log : Js.value)
| RunSdkGeneration (db : Db) (generationDir : string).

(** What a completed stage handed back. *)
Inductive Returned :=
| RetVoid
| RetDb (db : Db)
| RetCtx (ctx : Ctx)
| RetSession (sessionId : SessionId)
| RetValue (v : Js.value).

(** Everything startup.js does to the outside, in program order.  A [Stage]
    is recorded when it completes, with the value it resolved to or the error
    it failed with. *)
Inductive Event :=
| EvStage (s : Stage) (result : Outcome Returned)
| EvExistsSync (path : string) (result : bool)
| EvConsoleLog (line : string)
| EvLogInitStdout
| EvLogInfo (msg : string)
| EvLogWarning (msg : string)
| EvLogError (e : JsError)
| EvInitializeElectronUi (port : N) (uiMode : Js.value)
| EvDockHide
| EvQuit.

(** ** The world: disk, the module-global main database, the trace *)

Record World := {
  fs : gmap string string;
  mainDb : option Db;
  trace : list Event;
}.

Definition record (e : Event) (w : World) : World :=
  {| fs := fs w; mainDb := mainDb w; trace := trace w ++ [e] |}.

Definition setFs (f : gmap string string) (w : World) : World :=
  {| fs := f; mainDb := mainDb w; trace := trace w |}.

Definition setMainDb (d : Db) (w : World) : World :=
  {| fs := fs w; mainDb := Some d; trace := trace w |}.

(** ** The monad of synchronous blocks and promise chains *)

Definition M (A : Type) : Type := World → Outcome A * World.

#[global] Instance M_ret : MRet M := λ A a w, (Resolved a, w).

#[global] Instance M_bind : MBind M := λ A B f m w,
  match m w with
  | (Resolved a, w') => f a w'
  | (Rejected e, w') => (Rejected e, w')
  end.

Definition throw {A} (e : JsError) : M A := λ w, (Rejected e, w).

(** [p.then(f)]: [f] runs only when [p] is fulfilled. *)
Definition then_ {A B} (p : M A) (f : A → M B) : M B := p ≫= f.

(** [p.catch(h)]: [h] runs only when [p] is rejected. *)
Definition catch_ {A} (p : M A) (h : JsError → M A) : M A := λ w,
  match p w with
  | (Resolved a, w') => (Resolved a, w')
  | (Rejected e, w') => h e w'
  end.

Notation "p |then> f" := (then_ p f) (at level 61, left associativity).
Notation "p |catch> h" := (catch_ p h) (at level 61, left associativity).

Definition emit (e : Event) : M unit := λ w, (Resolved (), record e w).

(** [if (c) stmt] *)
Definition when (c : bool) (stmt : M unit) : M unit :=
  if c then stmt else mret ().

(** How a start-up function ends for its caller. *)
Inductive Settled :=
| Fulfilled
| RejectedWith (e : JsError).

Inductive Completion :=
| Threw (e : JsError)                (* a synchronous exception *)
| ReturnsPromise (chain : Settled)   (* the chain is returned to the caller *)
| ReturnsUndefined (chain : Settled) (* the chain is left detached *).

Definition settle {A} (o : Outcome A) : Settled :=
  match o with
  | Resolved _ => Fulfilled
  | Rejected e => RejectedWith e
  end.

Definition outcome_map {A B} (f : A → B) (o : Outcome A) : Outcome B :=
  match o with
  | Resolved a => Resolved (f a)
  | Rejected e => Rejected e
  end.

(** A function body: a synchronous block, then the rest. *)
Definition body (sync : M unit) (rest : World → Completion * World)
  : World → Completion * World := λ w,
  match sync w with
  | (Resolved _, w') => rest w'
  | (Rejected e, w') => (Threw e, w')
  end.

Definition returnChain {A} (chain : M A) : World → Completion * World := λ w,
  let '(o, w') := chain w in (ReturnsPromise (settle o), w').

Definition detachChain {A} (chain : M A) : World → Completion * World := λ w,
  let '(o, w') := chain w in (ReturnsUndefined (settle o), w').

(** ** What the module imports

    The modules required at the top of startup.js are not part of this
    development; their behaviour is a parameter.  A collaborator call sees the
    disk, may change it, and settles as fulfilled or rejected. *)

Record Externals := {
  (* util/env.js *)
  env_sqliteFile : option string → string;
  env_schemaFile : string;
  env_zapVersion : string;
  (* main-process/args.js *)
  args_noServer : bool;
  args_zclPropertiesFile : string;
  args_genTemplateJsonFile : string;
  args_httpPort : N;
  (* electron: whether [app.dock] is defined *)
  app_dock : bool;
  (* fs: the error, if any, with which a removal or a rename is refused *)
  fs_unlinkFault : string → gmap string string → option JsError;
  fs_renameFault : string → string → gmap string string → option JsError;
  (* db/db-api.js *)
  dbApi_initDatabase :
    string → gmap string string → Outcome Db * gmap string string;
  dbApi_loadSchema :
    Db → string → string → gmap string string → Outcome Db * gmap string string;
  (* zcl/zcl-loader.js *)
  zclLoader_loadZcl :
    Db → string → gmap string string → Outcome Ctx * gmap string string;
  (* generator/generation-engine.js *)
  generatorEngine_loadTemplates :
    Db → string → gmap string string → Outcome Ctx * gmap string string;
  generatorEngine_generateAndWriteFiles :
    option Db → SessionId → PackageId → string → Js.value →
    gmap string string → Outcome () * gmap string string;
  (* server/http-server.js *)
  httpServer_initHttpServer :
    Db → N → gmap string string → Outcome Js.value * gmap string string;
  httpServer_httpServerPort : N;
  (* db/query-session.js *)
  querySession_createBlankSession :
    option Db → gmap string string → Outcome SessionId * gmap string string;
  (* util/util.js *)
  util_initializeSessionPackage :
    option Db → SessionId → gmap string string →
    Outcome SessionId * gmap string string;
  (* sdk-gen/sdk-gen.js *)
  sdkGen_runSdkGeneration :
    Db → string → gmap string string → Outcome () * gmap string string;
}.

Section Startup.

Variable X : Externals.

(** *** Calls out of the module *)

(** A collaborator call: run it on the disk, record how it settled. *)
Definition call {A} (s : Stage) (ret : A → Returned)
    (f : gmap string string → Outcome A * gmap string string) : M A := λ w,
  let '(o, disk) := f (fs w) in
  (o, record (EvStage s (outcome_map ret o)) (setFs disk w)).

Definition console_log (line : string) : M unit := emit (EvConsoleLog line).
Definition env_logInitStdout : M unit := emit EvLogInitStdout.
Definition env_logInfo (msg : string) : M unit := emit (EvLogInfo msg).
Definition env_logWarning (msg : string) : M unit := emit (EvLogWarning msg).
Definition env_logError (e : JsError) : M unit := emit (EvLogError e).
Definition app_quit : M unit := emit EvQuit.
Definition app_dock_hide : M unit := emit EvDockHide.
Definition windowJs_initializeElectronUi (port : N) (uiMode : Js.value)
  : M unit := emit (EvInitializeElectronUi port uiMode).

(** [fs.existsSync]: never throws. *)
Definition fs_existsSync (path : string) : M bool := λ w,
  let r := bool_decide (is_Some (fs w !! path)) in
  (Resolved r, record (EvExistsSync path r) w).

(** [fs.unlinkSync]: throws when the removal is refused or there is no
    such file; otherwise the file is gone. *)
Definition fs_unlinkSync (path : string) : M unit := λ w,
  match fs_unlinkFault X path (fs w) with
  | Some e => (Rejected e, record (EvStage (UnlinkSync path) (Rejected e)) w)
  | None =>
      match fs w !! path with
      | None =>
          (Rejected "ENOENT",
           record (EvStage (UnlinkSync path) (Rejected "ENOENT")) w)
      | Some _ =>
          (Resolved (),
           record (EvStage (UnlinkSync path) (Resolved RetVoid))
             (setFs (delete path (fs w)) w))
      end
  end.

(** [fs.renameSync]: throws when the rename is refused or the source is
    missing; otherwise the content moves, replacing any file at the
    destination. *)
Definition fs_renameSync (from to : string) : M unit := λ w,
  match fs_renameFault X from to (fs w) with
  | Some e =>
      (Rejected e, record (EvStage (RenameSync from to) (Rejected e)) w)
  | None =>
      match fs w !! from with
      | None =>
          (Rejected "ENOENT",
           record (EvStage (RenameSync from to) (Rejected "ENOENT")) w)
      | Some content =>
          (Resolved (),
           record (EvStage (RenameSync from to) (Resolved RetVoid))
             (setFs (<[to := content]> (delete from (fs w))) w))
      end
  end.

Definition initDatabase (path : string) : M Db := λ w,
  call (InitDatabase path (fs w !! path)) RetDb (dbApi_initDatabase X path) w.

(** Modelled from the spec: [env.resolveMainDatabase] and
    [env.mainDatabase] live in util/env.js, which is not among the sources.
    The spec describes them as the module-global "resolved main database
    handle": resolving stores the handle and hands it on, the accessor
    reads it back. *)
Definition env_resolveMainDatabase (db : Db) : M Db := λ w,
  (Resolved db,
   record (EvStage (ResolveMainDatabase db) (Resolved (RetDb db)))
     (setMainDb db w)).

Definition env_mainDatabase (w : World) : option Db := mainDb w.

Definition loadSchema (db : Db) (schema version : string) : M Db :=
  call (LoadSchema db schema version) RetDb
    (dbApi_loadSchema X db schema version).

Definition loadZcl (db : Db) (path : string) : M Ctx :=
  call (LoadZcl db path) RetCtx (zclLoader_loadZcl X db path).

Definition loadTemplates (db : Db) (path : string) : M Ctx :=
  call (LoadTemplates db path) RetCtx
    (generatorEngine_loadTemplates X db path).

Definition initHttpServer (db : Db) (port : N) : M Js.value :=
  call (InitHttpServer db port) RetValue
    (httpServer_initHttpServer X db port).

Definition createBlankSession : M SessionId := λ w,
  let db := env_mainDatabase w in
  call (CreateBlankSession db) RetSession
    (querySession_createBlankSession X db) w.

Definition initializeSessionPackage (sessionId : SessionId) : M SessionId :=
  λ w,
  let db := env_mainDatabase w in
  call (InitializeSessionPackage db sessionId) RetSession
    (util_initializeSessionPackage X db sessionId) w.

Definition generateAndWriteFiles (sessionId : SessionId)
    (packageId : PackageId) (output : string) (log : Js.value) : M unit :=
  λ w,
  let db := env_mainDatabase w in
  call (GenerateAndWriteFiles db sessionId packageId output log)
    (λ _, RetVoid)
    (generatorEngine_generateAndWriteFiles X db sessionId packageId output log)
    w.

Definition runSdkGeneration (db : Db) (generationDir : string) : M unit :=
  call (RunSdkGeneration db generationDir) (λ _, RetVoid)
    (sdkGen_runSdkGeneration X db generationDir).

(** The handler every chain ends with:
    [.catch((err) => { env.logError(err); throw err })]. *)
Definition logAndRethrow {A} (err : JsError) : M A :=
  env_logError err ;; throw err.

(** *** Default option objects

    A default parameter value stands in when the argument is omitted (or
    [undefined]): the options argument of a start-up function is [None] in
    that case and [Some o] when the caller passes the object [o].  Likewise
    [zapFile] is [None] for an omitted or [null] argument. *)

Definition startSelfCheck_defaults : Js.object :=
  {[ "log" := Js.Bool true ]}.

Definition startGeneration_defaults : Js.object :=
  <[ "quit" := Js.Bool true ]>
    (<[ "cleanDb" := Js.Bool true ]> {[ "log" := Js.Bool true ]}).

Definition startSdkGeneration_defaults : Js.object :=
  <[ "quit" := Js.Bool true ]> {[ "cleanDb" := Js.Bool true ]}.

(** *** Console lines *)

Definition landingPageNotice (port : N) : string :=
  "url: http://localhost:" +:+ pretty port +:+ "/index.html".

Definition generationInformation
    (output genTemplateJsonFile zclProperties : string) : string :=
  "🤖 Generation information: 
    👉 into: " +:+ output +:+ "
    👉 using templates: " +:+ genTemplateJsonFile +:+ "
    👉 using zcl data: " +:+ zclProperties.

(** *** startNormal *)

Definition startNormal (uiEnabled showUrl uiMode : Js.value)
  : World → Completion * World :=
  detachChain
    (initDatabase (env_sqliteFile X None)
     |then> (λ db, env_resolveMainDatabase db)
     |then> (λ db, loadSchema db (env_schemaFile X) (env_zapVersion X))
     |then> (λ db, loadZcl db (args_zclPropertiesFile X))
     |then> (λ ctx,
          loadTemplates (ctx_db ctx) (args_genTemplateJsonFile X))
     |then> (λ ctx,
          if negb (args_noServer X)
          then initHttpServer (ctx_db ctx) (args_httpPort X)
          else mret (Js.Bool true))
     |then> (λ _,
          if Js.truthy uiEnabled then
            windowJs_initializeElectronUi (httpServer_httpServerPort X) uiMode
          else
            when (app_dock X) app_dock_hide ;;
            when (Js.truthy showUrl && negb (args_noServer X))
              (console_log (landingPageNotice (httpServer_httpServerPort X))))
     |then> (λ _, when (args_noServer X) app_quit)
     |catch> logAndRethrow).

(** *** startSelfCheck *)

Definition startSelfCheck (optionsArg : option Js.object)
  : World → Completion * World :=
  let options := default startSelfCheck_defaults optionsArg in
  let log := Js.truthy (Js.get options "log") in
  let dbFile := env_sqliteFile X (Some "self-check") in
  body
    (env_logInitStdout ;;
     when log (console_log "🤖 Starting self-check") ;;
     there ← fs_existsSync dbFile;
     when there (fs_unlinkSync dbFile))
    (detachChain
       (initDatabase dbFile
        |then> (λ db,
             when log (console_log "    👉 database initialized") ;;
             env_resolveMainDatabase db)
        |then> (λ db, loadSchema db (env_schemaFile X) (env_zapVersion X))
        |then> (λ db,
             when log (console_log "    👉 schema initialized") ;;
             loadZcl db (args_zclPropertiesFile X))
        |then> (λ ctx,
             when log (console_log "    👉 zcl data loaded") ;;
             loadTemplates (ctx_db ctx) (args_genTemplateJsonFile X))
        |then> (λ ctx,
             when log (console_log "    👉 generation templates loaded") ;;
             when log (console_log "😎 Self-check done!") ;;
             app_quit)
        |catch> logAndRethrow)).

(** *** startGeneration

    [options.cleanDb && fs.existsSync(dbFile)] short-circuits: the disk is
    probed only when [cleanDb] is truthy.  [var packageId] is assigned once,
    in the callback that receives the template context, and read only by a
    later callback; it is bound where it is assigned. *)

Definition ensureFresh (cleanDb : Js.value) (dbFile : string) : M unit :=
  stale ← (if Js.truthy cleanDb then fs_existsSync dbFile else mret false);
  when stale (fs_unlinkSync dbFile).

Definition startGeneration
    (output genTemplateJsonFile zclProperties : string)
    (zapFile : option string) (optionsArg : option Js.object)
  : World → Completion * World :=
  let options := default startGeneration_defaults optionsArg in
  let log := Js.truthy (Js.get options "log") in
  let dbFile := env_sqliteFile X (Some "generate") in
  body
    (when log
       (console_log
          (generationInformation output genTemplateJsonFile zclProperties)) ;;
     match zapFile with
     | Some file => when log (console_log ("    👉 using input file: " +:+ file))
     | None => when log (console_log "    👉 using empty configuration")
     end ;;
     ensureFresh (Js.get options "cleanDb") dbFile)
    (returnChain
       (initDatabase dbFile
        |then> (λ db, env_resolveMainDatabase db)
        |then> (λ db, loadSchema db (env_schemaFile X) (env_zapVersion X))
        |then> (λ db, loadZcl db zclProperties)
        |then> (λ ctx, loadTemplates (ctx_db ctx) genTemplateJsonFile)
        |then> (λ ctx,
             let packageId := ctx_packageId ctx in
             createBlankSession
             |then> (λ sessionId, initializeSessionPackage sessionId)
             |then> (λ sessionId,
                  generateAndWriteFiles sessionId packageId output
                    (Js.get options "log")))
        |then> (λ _, when (Js.truthy (Js.get options "quit")) app_quit)
        |catch> logAndRethrow)).

(** *** startSdkGeneration *)

Definition startSdkGeneration (generationDir : string)
    (zclPropertiesFilePath : option string) (optionsArg : option Js.object)
  : World → Completion * World :=
  let options := default startSdkGeneration_defaults optionsArg in
  let dbFile := env_sqliteFile X (Some "sdk-regen") in
  body
    (env_logInfo "Start SDK generation..." ;;
     ensureFresh (Js.get options "cleanDb") dbFile)
    (returnChain
       (initDatabase dbFile
        |then> (λ db, env_resolveMainDatabase db)
        |then> (λ db, loadSchema db (env_schemaFile X) (env_zapVersion X))
        |then> (λ db,
             loadZcl db
               (match zclPropertiesFilePath with
                | Some path =>
                    if Js.truthy (Js.Str path) then path
                    else args_zclPropertiesFile X
                | None => args_zclPropertiesFile X
                end))
        |then> (λ ctx, runSdkGeneration (ctx_db ctx) generationDir)
        |then> (λ res, when (Js.truthy (Js.get options "quit")) app_quit)
        |catch> logAndRethrow)).

(** *** clearDatabaseFile *)

Definition clearDatabaseFile : M unit :=
  let path := env_sqliteFile X None in
  let pathBak := path +:+ "~" in
  live ← fs_existsSync path;
  when live
    (old ← fs_existsSync pathBak;
     when old
       (env_logWarning ("Deleting old backup file: " +:+ pathBak) ;;
        fs_unlinkSync pathBak) ;;
     env_logWarning
       ("Database restart requested, moving file: " +:+ path +:+ " to "
        +:+ pathBak) ;;
     fs_renameSync path pathBak).

End Startup.

(** ** Reading a trace *)

(** The events an invocation added to the trace. *)
Definition eventsSince (before after : World) : list Event :=
  drop (length (trace before)) (trace after).

(** The stages among some events, with how each one settled. *)
Definition stagesOf (events : list Event) : list (Stage * Outcome Returned) :=
  omap (λ ev, match ev with EvStage s o => Some (s, o) | _ => None end) events.

Definition errorsLogged (events : list Event) : list JsError :=
  omap (λ ev, match ev with EvLogError e => Some e | _ => None end) events.

Definition consoleLines (events : list Event) : list string :=
  omap (λ ev, match ev with EvConsoleLog l => Some l | _ => None end) events.

(** How many times [app.quit()] was called. *)
Definition quits (events : list Event) : nat :=
  length (omap (λ ev, match ev with EvQuit => Some () | _ => None end) events).

Definition succeeded {A} (o : Outcome A) : bool :=
  match o with Resolved _ => true | Rejected _ => false end.

(** A stage without the handles and identifiers that flow through it: which
    operation it is, and on which caller-visible path. *)
Inductive Step :=
| StepUnlink (path : string)
| StepRename (from to : string)
| StepOpenDatabase (path : string)
| StepResolveMainDatabase
| StepLoadSchema (schema version : string)
| StepLoadZcl (path : string)
| StepLoadTemplates (path : string)
| StepInitHttpServer (port : N)
| StepCreateBlankSession
| StepInitializeSessionPackage
| StepGenerateAndWriteFiles (output : string)
| StepRunSdkGeneration (generationDir : string).

#[global] Instance Step_eq_dec : EqDecision Step.
Proof. solve_decision. Defined.

Definition stepOf (s : Stage) : Step :=
  match s with
  | UnlinkSync path => StepUnlink path
  | RenameSync from to => StepRename from to
  | InitDatabase path _ => StepOpenDatabase path
  | ResolveMainDatabase _ => StepResolveMainDatabase
  | LoadSchema _ schema version => StepLoadSchema schema version
  | LoadZcl _ path => StepLoadZcl path
  | LoadTemplates _ path => StepLoadTemplates path
  | InitHttpServer _ port => StepInitHttpServer port
  | CreateBlankSession _ => StepCreateBlankSession
  | InitializeSessionPackage _ _ => StepInitializeSessionPackage
  | GenerateAndWriteFiles _ _ _ output _ => StepGenerateAndWriteFiles output
  | RunSdkGeneration _ dir => StepRunSdkGeneration dir
  end.

(** The first event satisfying [p], with the events before and after it. *)
Fixpoint splitAtFirst (p : Event → bool) (events : list Event)
  : option (list Event * Event * list Event) :=
  match events with
  | [] => None
  | ev :: rest =>
      if p ev then Some ([], ev, rest)
      else match splitAtFirst p rest with
           | Some (pre, hit, post) => Some (ev :: pre, hit, post)
           | None => None
           end
  end.

Definition isFailedStage (ev : Event) : bool :=
  match ev with EvStage _ (Rejected _) => true | _ => false end.

Definition isRename (ev : Event) : bool :=
  match ev with EvStage (RenameSync _ _) _ => true | _ => false end.

Definition existenceChecks (events : list Event) : list (string * bool) :=
  omap (λ ev, match ev with EvExistsSync p r => Some (p, r) | _ => None end)
    events.

(** [followsPlan plan run]: the stages of [run] are the steps of [plan], in
    the plan's order, every stage but a failing one is followed by the next
    step of the plan, and a failing stage is the last one of the run. *)
Fixpoint followsPlan (plan : list Step) (run : list (Stage * Outcome Returned))
  : bool :=
  match plan, run with
  | [], [] => true
  | step :: plan', (s, Resolved _) :: run' =>
      bool_decide (stepOf s = step) && followsPlan plan' run'
  | step :: _, [(s, Rejected _)] => bool_decide (stepOf s = step)
  | _, _ => false
  end.

(** The steps of a headless generation, for the given arguments and disk. *)
Definition startGeneration_plan (X : Externals)
    (output genTemplateJsonFile zclProperties : string)
    (optionsArg : option Js.object) (w : World) : list Step :=
  let options := default startGeneration_defaults optionsArg in
  let dbFile := env_sqliteFile X (Some "generate") in
  (if Js.truthy (Js.get options "cleanDb")
      && bool_decide (is_Some (fs w !! dbFile))
   then [StepUnlink dbFile] else [])
  ++ [ StepOpenDatabase dbFile;
       StepResolveMainDatabase;
       StepLoadSchema (env_schemaFile X) (env_zapVersion X);
       StepLoadZcl zclProperties;
       StepLoadTemplates genTemplateJsonFile;
       StepCreateBlankSession;
       StepInitializeSessionPackage;
       StepGenerateAndWriteFiles output ].

(** The steps of a self-check, for the given disk. *)
Definition startSelfCheck_plan (X : Externals) (w : World) : list Step :=
  let dbFile := env_sqliteFile X (Some "self-check") in
  (if bool_decide (is_Some (fs w !! dbFile)) then [StepUnlink dbFile] else [])
  ++ [ StepOpenDatabase dbFile;
       StepResolveMainDatabase;
       StepLoadSchema (env_schemaFile X) (env_zapVersion X);
       StepLoadZcl (args_zclPropertiesFile X);
       StepLoadTemplates (args_genTemplateJsonFile X) ].

(** The progress line startSelfCheck prints once a stage has succeeded. *)
Definition progressLine (s : Stage) : option string :=
  match s with
  | InitDatabase _ _ => Some "    👉 database initialized"
  | LoadSchema _ _ _ => Some "    👉 schema initialized"
  | LoadZcl _ _ => Some "    👉 zcl data loaded"
  | LoadTemplates _ _ => Some "    👉 generation templates loaded"
  | _ => None
  end.

(** A run of stages, each successful one followed by its progress line when
    logging is on. *)
Definition withProgress (log : bool) (run : list (Stage * Outcome Returned))
  : list Event :=
  flat_map
    (λ so, EvStage so.1 so.2
           :: match progressLine so.1 with
              | Some line =>
                  if log && succeeded so.2 then [EvConsoleLog line] else []
              | None => []
              end)
    run.

(** What the database open found on disk, for each open in a run. *)
Definition openedOn (run : list (Stage * Outcome Returned))
  : list (string * option string) :=
  omap (λ so, match so.1 with
              | InitDatabase path onDisk => Some (path, onDisk)
              | _ => None
              end) run.

(** The package identifiers the template loads resolved to. *)
Definition templatePackages (run : list (Stage * Outcome Returned))
  : list PackageId :=
  omap (λ so, match so with
              | (LoadTemplates _ _, Resolved (RetCtx ctx)) =>
                  Some (ctx_packageId ctx)
              | _ => None
              end) run.

(** The package identifiers handed to the generator. *)
Definition generatedPackages (run : list (Stage * Outcome Returned))
  : list PackageId :=
  omap (λ so, match so.1 with
              | GenerateAndWriteFiles _ _ packageId _ _ => Some packageId
              | _ => None
              end) run.

(** ** Failure of a stage *)

(** A run in which a stage failed is, in the words of the specification,
    fail-fast, logged exactly once and re-raised: no stage follows the failed
    one, the error went to [env.logError] once, and the caller receives it,
    thrown or through the returned promise. *)
Definition loggedOnceAndReraised (c : Completion) (new : list Event) : Prop :=
  match splitAtFirst isFailedStage new with
  | Some (_, EvStage _ (Rejected e), post) =>
      stagesOf post = []
      ∧ errorsLogged new = [e]
      ∧ (c = Threw e ∨ c = ReturnsPromise (RejectedWith e))
  | _ => True
  end.

(** What startup.js does when a stage fails.  A refused removal of the
    database file is a synchronous exception: nothing follows, nothing is
    logged.  A failure inside the promise chain is followed by exactly one
    [env.logError] and nothing else, and the chain is rejected with that
    error; [chainRejected] says what the caller gets of it.  Without a
    failure nothing is logged as an error. *)
Definition failsFast (chainRejected : JsError → Completion)
    (c : Completion) (new : list Event) : Prop :=
  match splitAtFirst isFailedStage new with
  | Some (_, EvStage (UnlinkSync _) (Rejected e), post) =>
      post = [] ∧ errorsLogged new = [] ∧ c = Threw e
  | Some (_, EvStage _ (Rejected e), post) =>
      post = [EvLogError e] ∧ errorsLogged new = [e] ∧ c = chainRejected e
  | _ => errorsLogged new = []
  end.

(** ** Further readings of a trace *)

(** The files [fs.unlinkSync] was called on. *)
Definition removals (events : list Event) : list string :=
  omap (λ ev, match ev with
              | EvStage (UnlinkSync path) _ => Some path
              | _ => None
              end) events.

(** The calls of [windowJs.initializeElectronUi]. *)
Definition uiStarts (events : list Event) : list (N * Js.value) :=
  omap (λ ev, match ev with
              | EvInitializeElectronUi port uiMode => Some (port, uiMode)
              | _ => None
              end) events.

Definition isGenerate (ev : Event) : bool :=
  match ev with
  | EvStage (GenerateAndWriteFiles _ _ _ _ _) _ => true
  | _ => false
  end.

(** The [log] argument of the calls of the generator. *)
Definition generatorLogFlags (run : list (Stage * Outcome Returned))
  : list Js.value :=
  omap (λ so, match so.1 with
              | GenerateAndWriteFiles _ _ _ _ log => Some log
              | _ => None
              end) run.

(** How a run that finds a database file at [dbFile] starts.  With a truthy
    [cleanDb] the file is removed and the open that follows finds nothing on
    disk, unless the removal is refused, in which case the run ends there and
    the database is never opened.  With a falsy [cleanDb] the run starts with
    the open, which finds the file as it was. *)
Definition openedFresh (X : Externals) (dbFile : string) (cleanDb : Js.value)
    (before : World) (run : list (Stage * Outcome Returned)) : Prop :=
  if Js.truthy cleanDb then
    match fs_unlinkFault X dbFile (fs before) with
    | None =>
        ∃ opened rest,
          run = (UnlinkSync dbFile, Resolved RetVoid)
                :: (InitDatabase dbFile None, opened) :: rest
    | Some e => run = [(UnlinkSync dbFile, Rejected e)]
    end
  else
    ∃ opened rest,
      run = (InitDatabase dbFile (fs before !! dbFile), opened) :: rest.

(** How a self-check ends: the closing line and [app.quit()] when no stage
    failed, nothing after a refused removal, [env.logError] after a failure
    in the chain. *)
Definition selfCheckEnding (log : bool) (new : list Event) : list Event :=
  match splitAtFirst isFailedStage new with
  | None =>
      (if log then [EvConsoleLog "😎 Self-check done!"] else []) ++ [EvQuit]
  | Some (_, EvStage (UnlinkSync _) _, _) => []
  | Some (_, EvStage _ (Rejected e), _) => [EvLogError e]
  | Some _ => []
  end.

(** ** A concrete environment

    A small installation on which the model can be run: every collaborator
    succeeds unless told otherwise, opening a database creates the file, and
    generation writes one file into the output directory. *)

Module Demo.

Definition externals (noServer : bool) (unlinkRefused : option JsError)
    (schemaError : option JsError) : Externals := {|
  env_sqliteFile := λ name,
    match name with
    | None => "zap.sqlite"
    | Some n => n +:+ ".sqlite"
    end;
  env_schemaFile := "zap-schema.sql";
  env_zapVersion := "2020.1";
  args_noServer := noServer;
  args_zclPropertiesFile := "zcl/zcl.json";
  args_genTemplateJsonFile := "templates/gen-templates.json";
  args_httpPort := 9070%N;
  app_dock := false;
  fs_unlinkFault := λ _ _, unlinkRefused;
  fs_renameFault := λ _ _ _, None;
  dbApi_initDatabase := λ path disk,
    (Resolved 1%N, <[path := default "" (disk !! path)]> disk);
  dbApi_loadSchema := λ db _ _ disk,
    match schemaError with
    | Some e => (Rejected e, disk)
    | None => (Resolved db, disk)
    end;
  zclLoader_loadZcl := λ db _ disk,
    (Resolved {| ctx_db := db; ctx_packageId := 10%N |}, disk);
  generatorEngine_loadTemplates := λ db _ disk,
    (Resolved {| ctx_db := db; ctx_packageId := 20%N |}, disk);
  generatorEngine_generateAndWriteFiles := λ _ _ _ output _ disk,
    (Resolved (), <[output +:+ "/out.h" := "generated"]> disk);
  httpServer_initHttpServer := λ _ _ disk, (Resolved Js.Undefined, disk);
  httpServer_httpServerPort := 9070%N;
  querySession_createBlankSession := λ _ disk, (Resolved 7%N, disk);
  util_initializeSessionPackage := λ _ sessionId disk,
    (Resolved sessionId, disk);
  sdkGen_runSdkGeneration := λ _ _ disk, (Resolved (), disk);
|}.

Definition healthy : Externals := externals false None None.
Definition headless : Externals := externals true None None.
Definition lockedDisk : Externals := externals false (Some "EPERM") None.
Definition badSchema : Externals :=
  externals false None (Some "schema mismatch").

(** A disk holding the given files, nothing run yet. *)
Definition boot (files : list (string * string)) : World :=
  {| fs := list_to_map files; mainDb := None; trace := [] |}.

End Demo.

(** ** The other pipelines, and more readings of a trace *)

(** [given ? given : fallback] for a path argument: an omitted argument and
    the empty string are both falsy. *)
Definition pathOrElse (given : option string) (fallback : string) : string :=
  match given with
  | None | Some "" => fallback
  | Some path => path
  end.

(** The steps of the SDK regeneration, for the given arguments and disk. *)
Definition startSdkGeneration_plan (X : Externals) (generationDir : string)
    (zclPropertiesFilePath : option string) (optionsArg : option Js.object)
    (w : World) : list Step :=
  let options := default startSdkGeneration_defaults optionsArg in
  let dbFile := env_sqliteFile X (Some "sdk-regen") in
  (if Js.truthy (Js.get options "cleanDb")
      && bool_decide (is_Some (fs w !! dbFile))
   then [StepUnlink dbFile] else [])
  ++ [ StepOpenDatabase dbFile;
       StepResolveMainDatabase;
       StepLoadSchema (env_schemaFile X) (env_zapVersion X);
       StepLoadZcl
         (pathOrElse zclPropertiesFilePath (args_zclPropertiesFile X));
       StepRunSdkGeneration generationDir ].

(** The steps of the interactive start-up. *)
Definition startNormal_plan (X : Externals) : list Step :=
  [ StepOpenDatabase (env_sqliteFile X None);
    StepResolveMainDatabase;
    StepLoadSchema (env_schemaFile X) (env_zapVersion X);
    StepLoadZcl (args_zclPropertiesFile X);
    StepLoadTemplates (args_genTemplateJsonFile X) ]
  ++ (if args_noServer X then []
      else [StepInitHttpServer (args_httpPort X)]).

Definition isFulfilled (c : Completion) : bool :=
  match c with
  | ReturnsPromise Fulfilled | ReturnsUndefined Fulfilled => true
  | _ => false
  end.

(** The calls of [fs.renameSync]. *)
Definition renames (events : list Event) : list (string * string) :=
  omap (λ ev, match ev with
              | EvStage (RenameSync from to) _ => Some (from, to)
              | _ => None
              end) events.

Definition infosLogged (events : list Event) : list string :=
  omap (λ ev, match ev with EvLogInfo msg => Some msg | _ => None end) events.

(** How many times [app.dock.hide()] was called. *)
Definition dockHides (events : list Event) : nat :=
  length
    (omap (λ ev, match ev with EvDockHide => Some () | _ => None end) events).

(** Everything but the console lines. *)
Definition withoutConsole (events : list Event) : list Event :=
  omap (λ ev, match ev with EvConsoleLog _ => None | _ => Some ev end) events.

(** The handles the database opens resolved to. *)
Definition openedHandles (run : list (Stage * Outcome Returned)) : list Db :=
  omap (λ so, match so with
              | (InitDatabase _ _, Resolved (RetDb db)) => Some db
              | _ => None
              end) run.

(** The database argument of the stages that read [env.mainDatabase()]. *)
Definition sessionDatabases (run : list (Stage * Outcome Returned))
  : list (option Db) :=
  omap (λ so, match so.1 with
              | CreateBlankSession db
              | InitializeSessionPackage db _
              | GenerateAndWriteFiles db _ _ _ _ => Some db
              | _ => None
              end) run.

(** [threaded prev run]: every stage of [run] that takes a handle, a context
    or a session identifier from the callback argument was given what the
    stage right before it resolved to ([prev] for the first one). *)
Fixpoint threaded (prev : option Returned)
    (run : list (Stage * Outcome Returned)) : bool :=
  match run with
  | [] => true
  | (s, o) :: rest =>
      match s, prev with
      | ResolveMainDatabase db, Some (RetDb given)
      | LoadSchema db _ _, Some (RetDb given)
      | LoadZcl db _, Some (RetDb given) => bool_decide (db = given)
      | LoadTemplates db _, Some (RetCtx ctx)
      | InitHttpServer db _, Some (RetCtx ctx)
      | RunSdkGeneration db _, Some (RetCtx ctx) =>
          bool_decide (db = ctx_db ctx)
      | InitializeSessionPackage _ sessionId, Some (RetSession given)
      | GenerateAndWriteFiles _ sessionId _ _ _, Some (RetSession given) =>
          bool_decide (sessionId = given)
      | UnlinkSync _, _ | RenameSync _ _, _ | InitDatabase _ _, _
      | CreateBlankSession _, _ => true
      | _, _ => false
      end
      && threaded (match o with Resolved r => Some r | Rejected _ => None end)
           rest
  end.

(** An installation whose file system refuses every rename. *)
Definition withRenameRefused (e : JsError) (X : Externals) : Externals := {|
  env_sqliteFile := env_sqliteFile X;
  env_schemaFile := env_schemaFile X;
  env_zapVersion := env_zapVersion X;
  args_noServer := args_noServer X;
  args_zclPropertiesFile := args_zclPropertiesFile X;
  args_genTemplateJsonFile := args_genTemplateJsonFile X;
  args_httpPort := args_httpPort X;
  app_dock := app_dock X;
  fs_unlinkFault := fs_unlinkFault X;
  fs_renameFault := λ _ _ _, Some e;
  dbApi_initDatabase := dbApi_initDatabase X;
  dbApi_loadSchema := dbApi_loadSchema X;
  zclLoader_loadZcl := zclLoader_loadZcl X;
  generatorEngine_loadTemplates := generatorEngine_loadTemplates X;
  generatorEngine_generateAndWriteFiles :=
    generatorEngine_generateAndWriteFiles X;
  httpServer_initHttpServer := httpServer_initHttpServer X;
  httpServer_httpServerPort := httpServer_httpServerPort X;
  querySession_createBlankSession := querySession_createBlankSession X;
  util_initializeSessionPackage := util_initializeSessionPackage X;
  sdkGen_runSdkGeneration := sdkGen_runSdkGeneration X;
|}.

(** ** Running the model symbolically *)

Lemma eventsSince_app (w w' : World) (new : list Event) :
  trace w' = trace w ++ new → eventsSince w w' = new.
Proof. intros E. unfold eventsSince. rewrite E. apply drop_app_length. Qed.

(** To establish a property of the new events, exhibit them. *)
Lemma by_new_events {C} (w : World) (r : C * World)
    (P : C → list Event → Prop) :
  (∃ new, trace r.2 = trace w ++ new ∧ P r.1 new) →
  P r.1 (eventsSince w r.2).
Proof. intros (new & E & HP). by rewrite (eventsSince_app _ _ _ E). Qed.

(** The backup name is never the live name. *)
Lemma backup_path_differs (path : string) : path +:+ "~" ≠ path.
Proof.
  induction path as [| c p IH]; [discriminate |].
  cbn. intros E. injection E as E. by apply IH.
Qed.

Ltac unfold_model :=
  unfold startNormal, startSelfCheck, startGeneration, startSdkGeneration,
    clearDatabaseFile, ensureFresh, body, returnChain, detachChain,
    logAndRethrow, then_, catch_, when,
    initDatabase, env_resolveMainDatabase, env_mainDatabase, loadSchema,
    loadZcl, loadTemplates, initHttpServer, createBlankSession,
    initializeSessionPackage, generateAndWriteFiles, runSdkGeneration,
    fs_existsSync, fs_unlinkSync, fs_renameSync, call,
    console_log, env_logInitStdout, env_logInfo, env_logWarning, env_logError,
    app_quit, app_dock_hide, windowJs_initializeElectronUi, emit, throw,
    mbind, M_bind, mret, M_ret in *.

(** Forget how a flag was computed. *)
Ltac abstract_flags :=
  repeat match goal with
    | |- context [Js.truthy ?v] =>
        let flag := fresh "flag" in generalize (Js.truthy v); intros flag
    end.

(** One step of the run: split on a branch whose condition is not itself
    waiting for another branch. *)
Ltac exec1 :=
  match goal with
  | |- context [match ?x with _ => _ end] =>
      lazymatch x with
      | context [match _ with _ => _ end] => fail
      | _ => destruct x eqn:?
      end
  end.

Ltac exec := cbn; repeat (exec1; cbn).

(** Name the events of a finished run. *)
Ltac new_events :=
  eexists; split; [cbn; rewrite <- ?app_assoc; reflexivity | cbn].

Ltac same_steps := rewrite ?bool_decide_eq_true_2 by reflexivity; cbn.

(** ** Headless generation: the order of the stages *)

(** C1. Every headless generation runs its stages in one fixed order, each
    one only after the one before it completed successfully: removal of the
    database file (when [cleanDb] is set and the file is there), open
    database (and its registration as the main database), load schema, load
    the ZCL metadata from the caller's path, load the templates from the
    caller's path, create a blank session, initialize the session packages,
    generate and write into the caller's directory.  A stage that fails is
    the last one of the run, and the returned chain is fulfilled exactly
    when no stage failed. *)
Theorem startGeneration_stage_order (X : Externals)
    (output genTemplateJsonFile zclProperties : string)
    (zapFile : option string) (optionsArg : option Js.object) (w : World) :
  let r := startGeneration X output genTemplateJsonFile zclProperties zapFile
             optionsArg w in
  let run := stagesOf (eventsSince w r.2) in
  followsPlan
    (startGeneration_plan X output genTemplateJsonFile zclProperties
       optionsArg w) run = true
  ∧ (r.1 = ReturnsPromise Fulfilled ↔ forallb (λ so, succeeded so.2) run = true).
Proof.
  cbv zeta.
  match goal with |- context [eventsSince w ?r.2] =>
    apply (by_new_events w r (λ c new,
      followsPlan _ (stagesOf new) = true
      ∧ (c = ReturnsPromise Fulfilled
         ↔ forallb (λ so, succeeded so.2) (stagesOf new) = true)))
  end.
  unfold startGeneration_plan. unfold_model.
  destruct w as [disk main tr]. abstract_flags.
  exec; new_events; same_steps; (split; [reflexivity | split; done]).
Qed.

(** A clean headless generation on the demo installation, start to end. *)
Example startGeneration_demo_run :
  let r := startGeneration Demo.healthy "out" "gen.json" "zcl.json" None None
             (Demo.boot [("generate.sqlite", "stale")]) in
  r.1 = ReturnsPromise Fulfilled
  ∧ map (λ so, stepOf so.1) (stagesOf (trace r.2)) =
      [ StepUnlink "generate.sqlite"; StepOpenDatabase "generate.sqlite";
        StepResolveMainDatabase; StepLoadSchema "zap-schema.sql" "2020.1";
        StepLoadZcl "zcl.json"; StepLoadTemplates "gen.json";
        StepCreateBlankSession; StepInitializeSessionPackage;
        StepGenerateAndWriteFiles "out" ]
  ∧ fs r.2 !! "out/out.h" = Some "generated"
  ∧ quits (trace r.2) = 1.
Proof. vm_compute. done. Qed.

(** A schema that does not load stops the generation there. *)
Example startGeneration_demo_failure :
  let r := startGeneration Demo.badSchema "out" "gen.json" "zcl.json" None
             None (Demo.boot []) in
  r.1 = ReturnsPromise (RejectedWith "schema mismatch")
  ∧ map (λ so, stepOf so.1) (stagesOf (trace r.2)) =
      [ StepOpenDatabase "generate.sqlite"; StepResolveMainDatabase;
        StepLoadSchema "zap-schema.sql" "2020.1" ]
  ∧ errorsLogged (trace r.2) = ["schema mismatch"]
  ∧ fs r.2 !! "out/out.h" = None
  ∧ quits (trace r.2) = 0.
Proof. vm_compute. done. Qed.

(** ** Failure of a stage *)

(** C2, as stated, fails.  When the removal of the stale database file is
    refused, startGeneration throws before its promise chain exists: the
    error never reaches [env.logError].  And startSelfCheck does not return
    its chain, so a failure in it is logged but does not reach the caller. *)
Lemma startGeneration_unlink_failure_unlogged :
  let w := Demo.boot [("generate.sqlite", "stale")] in
  let r := startGeneration Demo.lockedDisk "out" "gen.json" "zcl.json" None
             None w in
  let w' := Demo.boot [] in
  let r' := startSelfCheck Demo.badSchema None w' in
  (r.1 = Threw "EPERM"
   ∧ errorsLogged (eventsSince w r.2) = []
   ∧ ¬ loggedOnceAndReraised r.1 (eventsSince w r.2))
  ∧ (r'.1 = ReturnsUndefined (RejectedWith "schema mismatch")
     ∧ ¬ loggedOnceAndReraised r'.1 (eventsSince w' r'.2)).
Proof.
  vm_compute. repeat split; try reflexivity.
  - intros (_ & E & _). discriminate E.
  - intros (_ & _ & [E | E]); discriminate E.
Qed.

(** C2, amended.  In every mode a stage that fails is the last stage of the
    invocation.  If it is a stage of the promise chain, the error is passed
    to [env.logError] exactly once, nothing else happens afterwards, and the
    chain is rejected with that same error: startGeneration and
    startSdkGeneration return the chain to their caller, startSelfCheck and
    startNormal leave it detached.  If it is the synchronous removal of the
    database file, the error is thrown to the caller and nothing is logged. *)
Theorem stage_failure_is_fatal (X : Externals) (w : World)
    (output genTemplateJsonFile zclProperties generationDir : string)
    (zapFile zclPropertiesFilePath : option string)
    (optionsArg : option Js.object) (uiEnabled showUrl uiMode : Js.value) :
  let returned e := ReturnsPromise (RejectedWith e) in
  let detached e := ReturnsUndefined (RejectedWith e) in
  let generation :=
    startGeneration X output genTemplateJsonFile zclProperties zapFile
      optionsArg w in
  let sdk :=
    startSdkGeneration X generationDir zclPropertiesFilePath optionsArg w in
  let selfCheck := startSelfCheck X optionsArg w in
  let normal := startNormal X uiEnabled showUrl uiMode w in
  failsFast returned generation.1 (eventsSince w generation.2)
  ∧ failsFast returned sdk.1 (eventsSince w sdk.2)
  ∧ failsFast detached selfCheck.1 (eventsSince w selfCheck.2)
  ∧ failsFast detached normal.1 (eventsSince w normal.2).
Proof.
  cbv zeta. destruct w as [disk main tr].
  repeat split; apply by_new_events; unfold_model; abstract_flags.
  all: exec; new_events; done.
Qed.

(** ** The database file and the open *)

(** C3. In startGeneration and in startSdkGeneration, when a database file
    is on disk at the mode's path: with [cleanDb] set, the file is removed
    first and the open that follows finds no file (a refused removal ends the
    run before any open); with [cleanDb] unset, nothing is removed and the
    open finds the file with the content it had. *)
Theorem database_file_removed_before_open (X : Externals) (w : World)
    (output genTemplateJsonFile zclProperties generationDir : string)
    (zapFile zclPropertiesFilePath : option string)
    (optionsArg : option Js.object) :
  let generation :=
    startGeneration X output genTemplateJsonFile zclProperties zapFile
      optionsArg w in
  let sdk :=
    startSdkGeneration X generationDir zclPropertiesFilePath optionsArg w in
  (is_Some (fs w !! env_sqliteFile X (Some "generate")) →
   openedFresh X (env_sqliteFile X (Some "generate"))
     (Js.get (default startGeneration_defaults optionsArg) "cleanDb") w
     (stagesOf (eventsSince w generation.2)))
  ∧ (is_Some (fs w !! env_sqliteFile X (Some "sdk-regen")) →
     openedFresh X (env_sqliteFile X (Some "sdk-regen"))
       (Js.get (default startSdkGeneration_defaults optionsArg) "cleanDb") w
       (stagesOf (eventsSince w sdk.2))).
Proof.
  cbv zeta. destruct w as [disk main tr].
  split; intros [content Hfile]; cbn in Hfile.
  all: match goal with
       | |- openedFresh ?X ?f ?c ?w (stagesOf (eventsSince _ ?r.2)) =>
           apply (by_new_events w r
                    (λ _ new, openedFresh X f c w (stagesOf new)))
       end.
  all: unfold openedFresh; unfold_model; abstract_flags; cbn; rewrite ?Hfile.
  all: exec; new_events.
  all: rewrite ?lookup_delete_eq, ?Hfile; try done; eauto.
  all: rewrite Hfile in *; done.
Qed.

Lemma database_file_removed_before_open_witness :
  let w := Demo.boot [("generate.sqlite", "stale"); ("sdk-regen.sqlite", "old")] in
  let generation :=
    startGeneration Demo.healthy "out" "gen.json" "zcl.json" None None w in
  let sdk :=
    startSdkGeneration Demo.healthy "out" None
      (Some {[ "cleanDb" := Js.Bool false ]}) w in
  (is_Some (fs w !! "generate.sqlite") ∧ is_Some (fs w !! "sdk-regen.sqlite"))
  ∧ openedFresh Demo.healthy "generate.sqlite" (Js.Bool true) w
      (stagesOf (eventsSince w generation.2))
  ∧ openedFresh Demo.healthy "sdk-regen.sqlite" (Js.Bool false) w
      (stagesOf (eventsSince w sdk.2)).
Proof.
  cbv zeta. split; [split; vm_compute; eauto |].
  split.
  - refine (proj1 (database_file_removed_before_open Demo.healthy
                     (Demo.boot [("generate.sqlite", "stale");
                                 ("sdk-regen.sqlite", "old")])
                     "out" "gen.json" "zcl.json" "out" None None None) _).
    vm_compute; eauto.
  - refine (proj2 (database_file_removed_before_open Demo.healthy
                     (Demo.boot [("generate.sqlite", "stale");
                                 ("sdk-regen.sqlite", "old")])
                     "out" "gen.json" "zcl.json" "out" None None
                     (Some {[ "cleanDb" := Js.Bool false ]})) _).
    vm_compute; eauto.
Defined.

(** ** Interactive mode: staying resident or quitting *)

(** C4, as stated, fails: a run configured without a server quits, and
    prints no landing-page notice even though [showUrl] asks for one. *)
Lemma startNormal_headless_prints_no_notice :
  let w := Demo.boot [] in
  let r := startNormal Demo.headless (Js.Bool false) (Js.Bool true)
             Js.Undefined w in
  r.1 = ReturnsUndefined Fulfilled
  ∧ quits (eventsSince w r.2) = 1
  ∧ consoleLines (eventsSince w r.2) = [].
Proof. vm_compute. done. Qed.

(** C4, amended.  A successful startNormal calls [app.quit()] exactly when
    [args.noServer] is set, and then prints nothing.  Otherwise it starts the
    HTTP server and stays resident; the landing-page notice is printed
    exactly when the UI is disabled, [showUrl] is set and there is a server.
    The UI is started exactly when [uiEnabled] is set. *)
Theorem startNormal_termination (X : Externals)
    (uiEnabled showUrl uiMode : Js.value) (w : World) :
  let r := startNormal X uiEnabled showUrl uiMode w in
  let new := eventsSince w r.2 in
  let port := httpServer_httpServerPort X in
  r.1 = ReturnsUndefined Fulfilled →
  quits new = (if args_noServer X then 1 else 0)
  ∧ consoleLines new =
      (if negb (Js.truthy uiEnabled) && Js.truthy showUrl
          && negb (args_noServer X)
       then [landingPageNotice port] else [])
  ∧ uiStarts new = (if Js.truthy uiEnabled then [(port, uiMode)] else [])
  ∧ map (λ so, stepOf so.1) (stagesOf new) =
      [ StepOpenDatabase (env_sqliteFile X None);
        StepResolveMainDatabase;
        StepLoadSchema (env_schemaFile X) (env_zapVersion X);
        StepLoadZcl (args_zclPropertiesFile X);
        StepLoadTemplates (args_genTemplateJsonFile X) ]
      ++ (if args_noServer X then []
          else [StepInitHttpServer (args_httpPort X)]).
Proof.
  cbv zeta. destruct w as [disk main tr].
  match goal with |- ?r.1 = _ → _ =>
    apply (by_new_events _ r (λ c new,
      c = ReturnsUndefined Fulfilled →
      quits new = _ ∧ consoleLines new = _ ∧ uiStarts new = _
      ∧ map (λ so, stepOf so.1) (stagesOf new) = _))
  end.
  unfold_model. abstract_flags.
  exec; new_events; done.
Qed.

Lemma startNormal_termination_witness :
  let w := Demo.boot [] in
  let r := startNormal Demo.healthy (Js.Bool false) (Js.Bool true)
             Js.Undefined w in
  r.1 = ReturnsUndefined Fulfilled
  ∧ quits (eventsSince w r.2) = 0
  ∧ consoleLines (eventsSince w r.2) =
      ["url: http://localhost:9070/index.html"].
Proof.
  cbv zeta. split; [vm_compute; reflexivity |].
  destruct (startNormal_termination Demo.healthy (Js.Bool false)
              (Js.Bool true) Js.Undefined (Demo.boot []))
    as (Q & L & _); [vm_compute; reflexivity |].
  split; [exact Q | exact L].
Defined.

(** ** Quitting after a successful run *)

(** C5, as stated, fails: startSelfCheck has no quit flag to consult, it
    quits even when the options say [quit: false]. *)
Lemma startSelfCheck_quits_whatever_the_flag :
  let options : Js.object :=
    <[ "quit" := Js.Bool false ]> {[ "log" := Js.Bool true ]} in
  let w := Demo.boot [] in
  let r := startSelfCheck Demo.healthy (Some options) w in
  Js.get options "quit" = Js.Bool false
  ∧ r.1 = ReturnsUndefined Fulfilled
  ∧ quits (eventsSince w r.2) = 1.
Proof. vm_compute. done. Qed.

(** C5, amended.  A successful startGeneration or startSdkGeneration calls
    [app.quit()] exactly when the [quit] property of its options is truthy,
    and the default options have [quit: true]; a successful startSelfCheck
    always calls [app.quit()]. *)
Theorem quit_on_success (X : Externals) (w : World)
    (output genTemplateJsonFile zclProperties generationDir : string)
    (zapFile zclPropertiesFilePath : option string)
    (optionsArg : option Js.object) :
  let generation :=
    startGeneration X output genTemplateJsonFile zclProperties zapFile
      optionsArg w in
  let sdk :=
    startSdkGeneration X generationDir zclPropertiesFilePath optionsArg w in
  let selfCheck := startSelfCheck X optionsArg w in
  let quitFlag (defaults : Js.object) :=
    Js.truthy (Js.get (default defaults optionsArg) "quit") in
  (generation.1 = ReturnsPromise Fulfilled →
   quits (eventsSince w generation.2) =
     if quitFlag startGeneration_defaults then 1 else 0)
  ∧ (sdk.1 = ReturnsPromise Fulfilled →
     quits (eventsSince w sdk.2) =
       if quitFlag startSdkGeneration_defaults then 1 else 0)
  ∧ (selfCheck.1 = ReturnsUndefined Fulfilled →
     quits (eventsSince w selfCheck.2) = 1)
  ∧ Js.get startGeneration_defaults "quit" = Js.Bool true
  ∧ Js.get startSdkGeneration_defaults "quit" = Js.Bool true.
Proof.
  cbv zeta. destruct w as [disk main tr].
  repeat split; try reflexivity.
  all: match goal with |- ?r.1 = ?ok → quits _ = ?n =>
         apply (by_new_events _ r (λ c new, c = ok → quits new = n))
       end.
  all: unfold_model; abstract_flags; exec; new_events; done.
Qed.

Lemma quit_on_success_witness :
  let w := Demo.boot [] in
  let generation :=
    startGeneration Demo.healthy "out" "gen.json" "zcl.json" None None w in
  let sdk := startSdkGeneration Demo.healthy "out" None None w in
  let selfCheck := startSelfCheck Demo.healthy None w in
  (generation.1 = ReturnsPromise Fulfilled
   ∧ sdk.1 = ReturnsPromise Fulfilled
   ∧ selfCheck.1 = ReturnsUndefined Fulfilled)
  ∧ quits (eventsSince w generation.2) = 1
  ∧ quits (eventsSince w sdk.2) = 1
  ∧ quits (eventsSince w selfCheck.2) = 1.
Proof.
  cbv zeta. split; [vm_compute; done |].
  destruct (quit_on_success Demo.healthy (Demo.boot []) "out" "gen.json"
              "zcl.json" "out" None None None) as (G & S & C & _).
  split; [apply G | split; [apply S | apply C]]; vm_compute; reflexivity.
Defined.

(** ** Moving the main database file away *)

(** C6. When a live database file exists and the file system permits the
    removal and the rename, clearDatabaseFile removes an old backup if there
    is one (with a warning), then renames the live file to the backup name:
    afterwards there is no live file, the backup holds the content the live
    file had, and no other file changed.  A second call right after only
    probes for the live file: it changes nothing on disk. *)
Theorem clearDatabaseFile_twice (X : Externals) (w : World) (content : string) :
  let path := env_sqliteFile X None in
  let pathBak := path +:+ "~" in
  let old := bool_decide (is_Some (fs w !! pathBak)) in
  fs w !! path = Some content →
  (∀ disk, fs_unlinkFault X pathBak disk = None) →
  (∀ disk, fs_renameFault X path pathBak disk = None) →
  ∃ w1 w2 : World,
    clearDatabaseFile X w = (Resolved (), w1)
    ∧ fs w1 !! path = None
    ∧ fs w1 !! pathBak = Some content
    ∧ (∀ other, other ≠ path → other ≠ pathBak →
       fs w1 !! other = fs w !! other)
    ∧ eventsSince w w1 =
        [EvExistsSync path true; EvExistsSync pathBak old]
        ++ (if old
            then [EvLogWarning ("Deleting old backup file: " +:+ pathBak);
                  EvStage (UnlinkSync pathBak) (Resolved RetVoid)]
            else [])
        ++ [EvLogWarning
              ("Database restart requested, moving file: " +:+ path
               +:+ " to " +:+ pathBak);
            EvStage (RenameSync path pathBak) (Resolved RetVoid)]
    ∧ clearDatabaseFile X w1 = (Resolved (), w2)
    ∧ fs w2 = fs w1
    ∧ eventsSince w1 w2 = [EvExistsSync path false].
Proof.
  unfold clearDatabaseFile. cbv zeta.
  generalize (backup_path_differs (env_sqliteFile X None)).
  generalize (env_sqliteFile X None). intros path Diff Live Unlink Rename.
  destruct w as [disk main tr]. cbn in Live.
  unfold fs_existsSync, fs_unlinkSync, fs_renameSync,
    env_logWarning, emit, when, mbind, M_bind, mret, M_ret. cbn.
  rewrite Live. cbn.
  destruct (disk !! (path +:+ "~")) as [backup |] eqn:Bak; cbn.
  - repeat (first [rewrite Unlink | rewrite Rename | rewrite Bak
                  | rewrite Live | rewrite lookup_delete_ne by done]; cbn).
    eexists _, _. split; [reflexivity |]. cbn.
    rewrite lookup_insert_ne, lookup_delete_eq, lookup_insert_eq by done.
    repeat split.
    + intros other N1 N2.
      by rewrite lookup_insert_ne, !lookup_delete_ne.
    + unfold eventsSince; cbn. rewrite <- !app_assoc. apply drop_app_length.
    + unfold eventsSince; cbn. apply drop_app_length.
  - repeat (first [rewrite Rename | rewrite Live]; cbn).
    eexists _, _. split; [reflexivity |]. cbn.
    rewrite lookup_insert_ne, lookup_delete_eq, lookup_insert_eq by done.
    repeat split.
    + intros other N1 N2.
      by rewrite lookup_insert_ne, !lookup_delete_ne.
    + unfold eventsSince; cbn. rewrite <- !app_assoc. apply drop_app_length.
    + unfold eventsSince; cbn. apply drop_app_length.
Qed.

Lemma clearDatabaseFile_twice_witness :
  let w := Demo.boot [("zap.sqlite", "live"); ("zap.sqlite~", "older")] in
  fs w !! "zap.sqlite" = Some "live"
  ∧ ∃ w1 w2 : World,
      clearDatabaseFile Demo.healthy w = (Resolved (), w1)
      ∧ fs w1 !! "zap.sqlite" = None
      ∧ fs w1 !! "zap.sqlite~" = Some "live"
      ∧ clearDatabaseFile Demo.healthy w1 = (Resolved (), w2)
      ∧ fs w2 = fs w1.
Proof.
  cbv zeta. split; [vm_compute; reflexivity |].
  destruct (clearDatabaseFile_twice Demo.healthy
              (Demo.boot [("zap.sqlite", "live"); ("zap.sqlite~", "older")])
              "live")
    as (w1 & w2 & First & Gone & Kept & _ & _ & Second & Same & _);
    [vm_compute; reflexivity | reflexivity | reflexivity |].
  exists w1, w2. repeat split; assumption.
Defined.

(** C7, as stated, fails: with a live file and no backup the probe for the
    backup answers false, and the live file is renamed all the same. *)
Lemma clearDatabaseFile_renames_without_backup :
  let w := Demo.boot [("zap.sqlite", "live")] in
  let r := clearDatabaseFile Demo.healthy w in
  r.1 = Resolved ()
  ∧ match splitAtFirst isRename (eventsSince w r.2) with
    | Some (pre, EvStage (RenameSync from to) (Resolved _), _) =>
        from = "zap.sqlite" ∧ to = "zap.sqlite~"
        ∧ existenceChecks pre =
            [("zap.sqlite", true); ("zap.sqlite~", false)]
    | _ => False
    end
  ∧ fs r.2 !! "zap.sqlite~" = Some "live".
Proof. vm_compute. done. Qed.

(** C7, amended.  clearDatabaseFile renames the live file only after it has
    probed for the live file, found it, and probed for the backup, whatever
    that second probe answers; and whenever the operation fails, the live
    file is as it was. *)
Theorem clearDatabaseFile_rename_guarded (X : Externals) (w : World) :
  let path := env_sqliteFile X None in
  let pathBak := path +:+ "~" in
  let r := clearDatabaseFile X w in
  let new := eventsSince w r.2 in
  match splitAtFirst isRename new with
  | Some (pre, EvStage (RenameSync from to) _, _) =>
      from = path ∧ to = pathBak
      ∧ existenceChecks pre =
          [(path, true); (pathBak, bool_decide (is_Some (fs w !! pathBak)))]
  | _ => fs r.2 !! path = fs w !! path
  end
  ∧ (∀ e, r.1 = Rejected e → fs r.2 !! path = fs w !! path).
Proof.
  cbv zeta. destruct w as [disk main tr].
  match goal with |- context [eventsSince ?w ?r.2] =>
    apply (by_new_events w r (λ c new,
      match splitAtFirst isRename new with
      | Some (pre, EvStage (RenameSync from to) _, _) =>
          from = _ ∧ to = _ ∧ existenceChecks pre = _
      | _ => fs r.2 !! _ = _
      end
      ∧ (∀ e, c = Rejected e → fs r.2 !! _ = _)))
  end.
  unfold_model. cbn [fs].
  generalize (backup_path_differs (env_sqliteFile X None)).
  generalize (env_sqliteFile X None). intros path Diff.
  exec; new_events; (split; [| intros e E]); try done.
  all: by rewrite ?lookup_delete_ne.
Qed.

Lemma clearDatabaseFile_rename_guarded_witness :
  let w := Demo.boot [("zap.sqlite", "live"); ("zap.sqlite~", "older")] in
  let r := clearDatabaseFile Demo.lockedDisk w in
  r.1 = Rejected "EPERM" ∧ fs r.2 !! "zap.sqlite" = fs w !! "zap.sqlite".
Proof.
  cbv zeta. split; [vm_compute; reflexivity |].
  destruct (clearDatabaseFile_rename_guarded Demo.lockedDisk
              (Demo.boot [("zap.sqlite", "live"); ("zap.sqlite~", "older")]))
    as [_ Kept].
  apply (Kept "EPERM"). vm_compute; reflexivity.
Defined.

(** ** Self-check *)

(** Whatever is on disk, a self-check follows its plan and opens its
    database on a path where no file is left. *)
Lemma startSelfCheck_opens_fresh (X : Externals)
    (optionsArg : option Js.object) (w : World) :
  let r := startSelfCheck X optionsArg w in
  let run := stagesOf (eventsSince w r.2) in
  followsPlan (startSelfCheck_plan X w) run = true
  ∧ Forall (λ po, po = (env_sqliteFile X (Some "self-check"), None))
      (openedOn run).
Proof.
  cbv zeta. destruct w as [disk main tr].
  match goal with |- context [eventsSince ?w ?r.2] =>
    apply (by_new_events w r (λ _ new,
      followsPlan _ (stagesOf new) = true ∧ Forall _ (openedOn (stagesOf new))))
  end.
  unfold startSelfCheck_plan. unfold_model. abstract_flags. cbn.
  destruct (disk !! env_sqliteFile X (Some "self-check")) eqn:File.
  all: exec; new_events; same_steps.
  all: rewrite ?lookup_delete_eq, ?File;
    try (split; [done | repeat constructor]).
  all: by rewrite File in *.
Qed.

(** C8. A self-check first removes the database file at the self-check path
    if there is one, then opens the database, loads the schema, the ZCL
    metadata and the templates named by the arguments module, in this order
    and each only after the one before succeeded.  With logging on it prints
    the opening line and one progress line right after each of the four
    stages that succeeded; with logging off it prints nothing.  It ends with
    the closing line and [app.quit()] when no stage failed.  The open never
    finds a file left by an earlier run, and a second self-check run right
    after the first behaves in the same way. *)
Theorem startSelfCheck_run (X : Externals)
    (optionsArg optionsArg' : option Js.object) (w : World) :
  let log := Js.truthy (Js.get (default startSelfCheck_defaults optionsArg)
                          "log") in
  let dbFile := env_sqliteFile X (Some "self-check") in
  let first := startSelfCheck X optionsArg w in
  let new := eventsSince w first.2 in
  let second := startSelfCheck X optionsArg' first.2 in
  let new' := eventsSince first.2 second.2 in
  (followsPlan (startSelfCheck_plan X w) (stagesOf new) = true
   ∧ Forall (λ po, po = (dbFile, None)) (openedOn (stagesOf new)))
  ∧ (new =
       [EvLogInitStdout]
       ++ (if log then [EvConsoleLog "🤖 Starting self-check"] else [])
       ++ [EvExistsSync dbFile (bool_decide (is_Some (fs w !! dbFile)))]
       ++ withProgress log (stagesOf new)
       ++ selfCheckEnding log new
     ∧ (first.1 = ReturnsUndefined Fulfilled
        ↔ forallb (λ so, succeeded so.2) (stagesOf new) = true))
  ∧ (followsPlan (startSelfCheck_plan X first.2) (stagesOf new') = true
     ∧ Forall (λ po, po = (dbFile, None)) (openedOn (stagesOf new'))).
Proof.
  cbv zeta. split; [apply startSelfCheck_opens_fresh |].
  split; [| apply startSelfCheck_opens_fresh].
  destruct w as [disk main tr].
  match goal with |- context [eventsSince ?w ?r.2] =>
    apply (by_new_events w r (λ c new,
      new = _ ++ _ ++ _ ++ withProgress _ (stagesOf new)
            ++ selfCheckEnding _ new
      ∧ (c = ReturnsUndefined Fulfilled
         ↔ forallb (λ so, succeeded so.2) (stagesOf new) = true)))
  end.
  unfold_model. abstract_flags.
  exec; new_events; (split; [reflexivity | split; done]).
Qed.

(** Two self-checks in a row on the demo installation: the second removes
    the database the first one left and goes through the same stages. *)
Example startSelfCheck_demo_twice :
  let first := startSelfCheck Demo.healthy None (Demo.boot []) in
  let second := startSelfCheck Demo.healthy None first.2 in
  first.1 = ReturnsUndefined Fulfilled
  ∧ second.1 = ReturnsUndefined Fulfilled
  ∧ fs first.2 !! "self-check.sqlite" = Some ""
  ∧ removals (eventsSince first.2 second.2) = ["self-check.sqlite"]
  ∧ openedOn (stagesOf (eventsSince first.2 second.2)) =
      [("self-check.sqlite", None)]
  ∧ consoleLines (eventsSince first.2 second.2) =
      consoleLines (trace first.2).
Proof. vm_compute. done. Qed.

(** ** Headless generation: the template package identifier *)

(** C9. Whenever startGeneration calls the generator, the template load has
    completed before, and the package identifier the generator receives is
    the one that load resolved to; a fulfilled run did both, with the same
    identifier. *)
Theorem startGeneration_threads_packageId (X : Externals)
    (output genTemplateJsonFile zclProperties : string)
    (zapFile : option string) (optionsArg : option Js.object) (w : World) :
  let r := startGeneration X output genTemplateJsonFile zclProperties zapFile
             optionsArg w in
  let new := eventsSince w r.2 in
  match splitAtFirst isGenerate new with
  | Some (pre, EvStage (GenerateAndWriteFiles _ _ packageId _ _) _, _) =>
      templatePackages (stagesOf pre) = [packageId]
  | _ => generatedPackages (stagesOf new) = []
  end
  ∧ (r.1 = ReturnsPromise Fulfilled →
     ∃ packageId,
       templatePackages (stagesOf new) = [packageId]
       ∧ generatedPackages (stagesOf new) = [packageId]).
Proof.
  cbv zeta. destruct w as [disk main tr].
  match goal with |- context [eventsSince ?w ?r.2] =>
    apply (by_new_events w r (λ c new,
      match splitAtFirst isGenerate new with
      | Some (pre, EvStage (GenerateAndWriteFiles _ _ packageId _ _) _, _) =>
          templatePackages (stagesOf pre) = [packageId]
      | _ => generatedPackages (stagesOf new) = []
      end
      ∧ (c = ReturnsPromise Fulfilled →
         ∃ packageId,
           templatePackages (stagesOf new) = [packageId]
           ∧ generatedPackages (stagesOf new) = [packageId])))
  end.
  unfold_model. abstract_flags.
  exec; new_events; (split; [reflexivity | try done; eauto]).
Qed.

Lemma startGeneration_threads_packageId_witness :
  let w := Demo.boot [] in
  let r := startGeneration Demo.healthy "out" "gen.json" "zcl.json" None None
             w in
  r.1 = ReturnsPromise Fulfilled
  ∧ ∃ packageId,
      templatePackages (stagesOf (eventsSince w r.2)) = [packageId]
      ∧ generatedPackages (stagesOf (eventsSince w r.2)) = [packageId].
Proof.
  cbv zeta. split; [vm_compute; reflexivity |].
  apply (startGeneration_threads_packageId Demo.healthy "out" "gen.json"
           "zcl.json" None None (Demo.boot [])).
  vm_compute; reflexivity.
Defined.

(** ** Options given in part *)

(** C10. The default flags of startGeneration and startSdkGeneration stand
    in only for an omitted options argument; in an options object every
    property that is left out reads as [undefined] and counts as false, each
    on its own.  Without [cleanDb] the database file is neither probed nor
    removed; without [quit] the run never calls [app.quit()]; without [log]
    startGeneration prints nothing and hands [undefined] to the generator as
    its log flag.  With the argument omitted, a database file found at the
    mode's path is removed, a fulfilled run calls [app.quit()] once, and
    startGeneration prints its two lines and hands [true] to the
    generator. *)
Theorem partial_options_drop_the_defaults (X : Externals) (w : World)
    (output genTemplateJsonFile zclProperties generationDir : string)
    (zapFile zclPropertiesFilePath : option string) (options : Js.object) :
  let generation given :=
    startGeneration X output genTemplateJsonFile zclProperties zapFile given
      w in
  let sdk given :=
    startSdkGeneration X generationDir zclPropertiesFilePath given w in
  let new (r : Completion * World) := eventsSince w r.2 in
  (options !! "cleanDb" = None →
   (existenceChecks (new (generation (Some options))) = []
    ∧ removals (new (generation (Some options))) = [])
   ∧ (existenceChecks (new (sdk (Some options))) = []
      ∧ removals (new (sdk (Some options))) = []))
  ∧ (options !! "quit" = None →
     quits (new (generation (Some options))) = 0
     ∧ quits (new (sdk (Some options))) = 0)
  ∧ (options !! "log" = None →
     consoleLines (new (generation (Some options))) = []
     ∧ Forall (λ log, log = Js.Undefined)
         (generatorLogFlags (stagesOf (new (generation (Some options))))))
  ∧ ((is_Some (fs w !! env_sqliteFile X (Some "generate")) →
      removals (new (generation None)) = [env_sqliteFile X (Some "generate")])
     ∧ ((generation None).1 = ReturnsPromise Fulfilled →
        quits (new (generation None)) = 1)
     ∧ consoleLines (new (generation None)) =
         [ generationInformation output genTemplateJsonFile zclProperties;
           match zapFile with
           | Some file => "    👉 using input file: " +:+ file
           | None => "    👉 using empty configuration"
           end ]
     ∧ Forall (λ log, log = Js.Bool true)
         (generatorLogFlags (stagesOf (new (generation None)))))
  ∧ ((is_Some (fs w !! env_sqliteFile X (Some "sdk-regen")) →
      removals (new (sdk None)) = [env_sqliteFile X (Some "sdk-regen")])
     ∧ ((sdk None).1 = ReturnsPromise Fulfilled →
        quits (new (sdk None)) = 1)).
Proof.
  cbv zeta. destruct w as [disk main tr].
  split; [| split; [| split; [| split]]].
  - intros NoClean.
    assert (Js.truthy (Js.get options "cleanDb") = false) as Clean
      by (unfold Js.get; rewrite NoClean; reflexivity).
    split.
    all: apply (by_new_events _ _ (λ _ new,
           existenceChecks new = [] ∧ removals new = [])).
    all: unfold_model; cbn [from_option id]; rewrite Clean; abstract_flags.
    all: exec; new_events; done.
  - intros NoQuit.
    assert (Js.truthy (Js.get options "quit") = false) as Quit
      by (unfold Js.get; rewrite NoQuit; reflexivity).
    split.
    all: apply (by_new_events _ _ (λ _ new, quits new = 0)).
    all: unfold_model; cbn [from_option id]; rewrite Quit; abstract_flags.
    all: exec; new_events; done.
  - intros NoLog.
    assert (Js.get options "log" = Js.Undefined) as Log
      by (unfold Js.get; rewrite NoLog; reflexivity).
    apply (by_new_events _ _ (λ _ new,
      consoleLines new = []
      ∧ Forall (λ log, log = Js.Undefined)
          (generatorLogFlags (stagesOf new)))).
    unfold_model; cbn [from_option id]; rewrite !Log; cbn [Js.truthy].
    abstract_flags.
    exec; new_events; (split; [reflexivity | repeat constructor]).
  - split; [| split; [| split]].
    all: try (intros [content Hfile]; cbn in Hfile).
    all: match goal with
         | |- removals (eventsSince ?w ?r.2) = ?l =>
             apply (by_new_events w r (λ _ new, removals new = l))
         | |- ?r.1 = ?ok → quits _ = ?n =>
             apply (by_new_events _ r (λ c new, c = ok → quits new = n))
         | |- consoleLines (eventsSince ?w ?r.2) = ?l =>
             apply (by_new_events w r (λ _ new, consoleLines new = l))
         | |- Forall ?P (generatorLogFlags (stagesOf (eventsSince ?w ?r.2))) =>
             apply (by_new_events w r (λ _ new,
               Forall P (generatorLogFlags (stagesOf new))))
         end.
    all: unfold_model; cbn [from_option id].
    all: change (Js.get startGeneration_defaults "cleanDb")
           with (Js.Bool true).
    all: change (Js.get startGeneration_defaults "quit") with (Js.Bool true).
    all: change (Js.get startGeneration_defaults "log") with (Js.Bool true).
    all: cbn [Js.truthy].
    all: exec; new_events; try done; try (repeat constructor).
    all: rewrite ?Hfile in *; done.
  - split.
    all: try (intros [content Hfile]; cbn in Hfile).
    all: match goal with
         | |- removals (eventsSince ?w ?r.2) = ?l =>
             apply (by_new_events w r (λ _ new, removals new = l))
         | |- ?r.1 = ?ok → quits _ = ?n =>
             apply (by_new_events _ r (λ c new, c = ok → quits new = n))
         end.
    all: unfold_model; cbn [from_option id].
    all: change (Js.get startSdkGeneration_defaults "cleanDb")
           with (Js.Bool true).
    all: change (Js.get startSdkGeneration_defaults "quit")
           with (Js.Bool true).
    all: cbn [Js.truthy].
    all: exec; new_events; try done.
    all: rewrite ?Hfile in *; done.
Qed.

Lemma partial_options_drop_the_defaults_witness :
  let logOnly : Js.object := {[ "log" := Js.Bool false ]} in
  let cleanOnly : Js.object := {[ "cleanDb" := Js.Bool false ]} in
  let w := Demo.boot [("generate.sqlite", "stale")] in
  let r := startGeneration Demo.healthy "out" "gen.json" "zcl.json" None
             (Some logOnly) w in
  let r' := startGeneration Demo.healthy "out" "gen.json" "zcl.json" None
              (Some cleanOnly) w in
  (logOnly !! "cleanDb" = None ∧ logOnly !! "quit" = None
   ∧ cleanOnly !! "log" = None ∧ cleanOnly !! "quit" = None)
  ∧ (r.1 = ReturnsPromise Fulfilled ∧ r'.1 = ReturnsPromise Fulfilled)
  ∧ (removals (eventsSince w r.2) = [] ∧ quits (eventsSince w r.2) = 0)
  ∧ (consoleLines (eventsSince w r'.2) = []
     ∧ generatorLogFlags (stagesOf (eventsSince w r'.2)) = [Js.Undefined]
     ∧ quits (eventsSince w r'.2) = 0).
Proof.
  cbv zeta. split; [repeat split; vm_compute; reflexivity |].
  split; [split; vm_compute; reflexivity |].
  destruct (partial_options_drop_the_defaults Demo.healthy
              (Demo.boot [("generate.sqlite", "stale")]) "out" "gen.json"
              "zcl.json" "out" None None {[ "log" := Js.Bool false ]})
    as (Clean & Quit & _).
  destruct (partial_options_drop_the_defaults Demo.healthy
              (Demo.boot [("generate.sqlite", "stale")]) "out" "gen.json"
              "zcl.json" "out" None None {[ "cleanDb" := Js.Bool false ]})
    as (_ & Quit' & Log' & _).
  split; [split |split; [| split]].
  - apply Clean. vm_compute; reflexivity.
  - apply Quit. vm_compute; reflexivity.
  - apply Log'. vm_compute; reflexivity.
  - vm_compute; reflexivity.
  - apply Quit'. vm_compute; reflexivity.
Defined.

(** ** The SDK regeneration and the interactive start-up: order of stages *)

(** X1. startSdkGeneration runs its stages in one fixed order, each only
    after the one before succeeded: removal of the database file (when
    [cleanDb] is set and the file is there), open, resolve, load schema,
    load the ZCL metadata, run the SDK generation into the caller's
    directory.  The metadata path is the caller's, unless it is omitted or
    empty: then it is the one of the arguments module.  The returned chain
    is fulfilled exactly when no stage failed. *)
Theorem startSdkGeneration_stage_order (X : Externals)
    (generationDir : string) (zclPropertiesFilePath : option string)
    (optionsArg : option Js.object) (w : World) :
  let r := startSdkGeneration X generationDir zclPropertiesFilePath
             optionsArg w in
  let run := stagesOf (eventsSince w r.2) in
  followsPlan
    (startSdkGeneration_plan X generationDir zclPropertiesFilePath
       optionsArg w) run = true
  ∧ (r.1 = ReturnsPromise Fulfilled ↔ forallb (λ so, succeeded so.2) run = true).
Proof.
  cbv zeta.
  match goal with |- context [eventsSince w ?r.2] =>
    apply (by_new_events w r (λ c new,
      followsPlan _ (stagesOf new) = true
      ∧ (c = ReturnsPromise Fulfilled
         ↔ forallb (λ so, succeeded so.2) (stagesOf new) = true)))
  end.
  unfold startSdkGeneration_plan, pathOrElse. unfold_model.
  destruct w as [disk main tr].
  destruct zclPropertiesFilePath as [[| c path] |]; cbn [Js.truthy String.eqb negb].
  all: abstract_flags.
  all: exec; new_events; same_steps; (split; [reflexivity | split; done]).
Qed.

(** X2. startNormal runs open, resolve, load schema, load ZCL metadata, load
    templates and, unless [args.noServer] is set, the HTTP server start, in
    this order and each only after the one before succeeded; its chain is
    fulfilled exactly when no stage failed. *)
Theorem startNormal_stage_order (X : Externals)
    (uiEnabled showUrl uiMode : Js.value) (w : World) :
  let r := startNormal X uiEnabled showUrl uiMode w in
  let run := stagesOf (eventsSince w r.2) in
  followsPlan (startNormal_plan X) run = true
  ∧ (r.1 = ReturnsUndefined Fulfilled
     ↔ forallb (λ so, succeeded so.2) run = true).
Proof.
  cbv zeta.
  match goal with |- context [eventsSince w ?r.2] =>
    apply (by_new_events w r (λ c new,
      followsPlan _ (stagesOf new) = true
      ∧ (c = ReturnsUndefined Fulfilled
         ↔ forallb (λ so, succeeded so.2) (stagesOf new) = true)))
  end.
  unfold startNormal_plan. unfold_model.
  destruct w as [disk main tr]. abstract_flags.
  destruct (args_noServer X); cbn [negb].
  all: exec; new_events; same_steps; (split; [reflexivity | split; done]).
Qed.

(** ** What flows from stage to stage *)

(** X3. In every mode each stage is called with what the stage right before
    it resolved to: the schema load and the ZCL load get the handle, the
    template load (and the HTTP server, and the SDK generation) the [db] of
    the context, the session initialisation and the generator the session
    identifier. *)
Theorem values_are_threaded (X : Externals) (w : World)
    (output genTemplateJsonFile zclProperties generationDir : string)
    (zapFile zclPropertiesFilePath : option string)
    (optionsArg : option Js.object) (uiEnabled showUrl uiMode : Js.value) :
  let generation :=
    startGeneration X output genTemplateJsonFile zclProperties zapFile
      optionsArg w in
  let sdk :=
    startSdkGeneration X generationDir zclPropertiesFilePath optionsArg w in
  let selfCheck := startSelfCheck X optionsArg w in
  let normal := startNormal X uiEnabled showUrl uiMode w in
  threaded None (stagesOf (eventsSince w generation.2)) = true
  ∧ threaded None (stagesOf (eventsSince w sdk.2)) = true
  ∧ threaded None (stagesOf (eventsSince w selfCheck.2)) = true
  ∧ threaded None (stagesOf (eventsSince w normal.2)) = true.
Proof.
  cbv zeta. destruct w as [disk main tr].
  repeat split.
  all: apply (by_new_events _ _ (λ _ new, threaded None (stagesOf new) = true)).
  all: unfold_model; abstract_flags.
  all: exec; new_events; same_steps; reflexivity.
Qed.

(** X4. The stages of startGeneration that read [env.mainDatabase()]
    (session creation, session initialisation, generation) all work on the
    handle the database open resolved to, whatever handles the schema and
    metadata loads resolved to afterwards. *)
Theorem session_stages_use_opened_database (X : Externals)
    (output genTemplateJsonFile zclProperties : string)
    (zapFile : option string) (optionsArg : option Js.object) (w : World) :
  let r := startGeneration X output genTemplateJsonFile zclProperties zapFile
             optionsArg w in
  let run := stagesOf (eventsSince w r.2) in
  Forall (λ db, Some <$> openedHandles run = [db]) (sessionDatabases run).
Proof.
  cbv zeta. destruct w as [disk main tr].
  apply (by_new_events _ _ (λ _ new,
    Forall (λ db, Some <$> openedHandles (stagesOf new) = [db])
      (sessionDatabases (stagesOf new)))).
  unfold_model. abstract_flags.
  exec; new_events; repeat constructor.
Qed.

(** X5. After any start-up, [env.mainDatabase()] is the handle the database
    open resolved to, also when a later stage failed; when the open itself
    failed, or was never reached, it is what it was before. *)
Theorem main_database_after_startup (X : Externals) (w : World)
    (output genTemplateJsonFile zclProperties generationDir : string)
    (zapFile zclPropertiesFilePath : option string)
    (optionsArg : option Js.object) (uiEnabled showUrl uiMode : Js.value) :
  let expected (r : Completion * World) :=
    match openedHandles (stagesOf (eventsSince w r.2)) with
    | db :: _ => Some db
    | [] => mainDb w
    end in
  let generation :=
    startGeneration X output genTemplateJsonFile zclProperties zapFile
      optionsArg w in
  let sdk :=
    startSdkGeneration X generationDir zclPropertiesFilePath optionsArg w in
  let selfCheck := startSelfCheck X optionsArg w in
  let normal := startNormal X uiEnabled showUrl uiMode w in
  mainDb generation.2 = expected generation
  ∧ mainDb sdk.2 = expected sdk
  ∧ mainDb selfCheck.2 = expected selfCheck
  ∧ mainDb normal.2 = expected normal.
Proof.
  cbv zeta. destruct w as [disk main tr].
  repeat split.
  all: match goal with |- mainDb ?r.2 = _ =>
         apply (by_new_events _ r (λ _ new,
           mainDb r.2 = match openedHandles (stagesOf new) with
                        | db :: _ => Some db
                        | [] => main
                        end))
       end.
  all: unfold_model; abstract_flags.
  all: exec; new_events; reflexivity.
Qed.

(** ** What the start-up modes do to the disk themselves *)

(** X6. Apart from what the collaborators do, a start-up touches the disk
    only to make room for its own database: startGeneration and
    startSdkGeneration probe their database file only when [cleanDb] is
    truthy and remove it only when the probe finds it; startSelfCheck always
    probes; startNormal neither probes nor removes.  No mode renames a
    file. *)
Theorem only_the_own_database_file_is_removed (X : Externals) (w : World)
    (output genTemplateJsonFile zclProperties generationDir : string)
    (zapFile zclPropertiesFilePath : option string)
    (optionsArg : option Js.object) (uiEnabled showUrl uiMode : Js.value) :
  let makesRoom (probe : bool) (dbFile : string) (new : list Event) :=
    let found := bool_decide (is_Some (fs w !! dbFile)) in
    existenceChecks new = (if probe then [(dbFile, found)] else [])
    ∧ removals new = (if probe && found then [dbFile] else [])
    ∧ renames new = [] in
  let cleanDb (defaults : Js.object) :=
    Js.truthy (Js.get (default defaults optionsArg) "cleanDb") in
  let generation :=
    startGeneration X output genTemplateJsonFile zclProperties zapFile
      optionsArg w in
  let sdk :=
    startSdkGeneration X generationDir zclPropertiesFilePath optionsArg w in
  let selfCheck := startSelfCheck X optionsArg w in
  let normal := startNormal X uiEnabled showUrl uiMode w in
  makesRoom (cleanDb startGeneration_defaults)
    (env_sqliteFile X (Some "generate")) (eventsSince w generation.2)
  ∧ makesRoom (cleanDb startSdkGeneration_defaults)
      (env_sqliteFile X (Some "sdk-regen")) (eventsSince w sdk.2)
  ∧ makesRoom true (env_sqliteFile X (Some "self-check"))
      (eventsSince w selfCheck.2)
  ∧ makesRoom false (env_sqliteFile X None) (eventsSince w normal.2).
Proof.
  cbv zeta. destruct w as [disk main tr]. cbn [fs].
  split; [| split; [| split]].
  all: apply (by_new_events _ _ (λ _ new,
         existenceChecks new = _ ∧ removals new = _ ∧ renames new = _)).
  all: unfold_model; abstract_flags.
  all: exec; new_events; done.
Qed.

(** ** Quitting, the UI and the console *)

(** X7. No mode calls [app.quit()] more than once, and a run whose chain is
    not fulfilled (a stage failed, or the removal of the database file
    threw) never calls it. *)
Theorem failed_run_never_quits (X : Externals) (w : World)
    (output genTemplateJsonFile zclProperties generationDir : string)
    (zapFile zclPropertiesFilePath : option string)
    (optionsArg : option Js.object) (uiEnabled showUrl uiMode : Js.value) :
  let quitsOnlyAfterSuccess (r : Completion * World) :=
    quits (eventsSince w r.2) = 0
    ∨ (isFulfilled r.1 = true ∧ quits (eventsSince w r.2) = 1) in
  quitsOnlyAfterSuccess
    (startGeneration X output genTemplateJsonFile zclProperties zapFile
       optionsArg w)
  ∧ quitsOnlyAfterSuccess
      (startSdkGeneration X generationDir zclPropertiesFilePath optionsArg w)
  ∧ quitsOnlyAfterSuccess (startSelfCheck X optionsArg w)
  ∧ quitsOnlyAfterSuccess (startNormal X uiEnabled showUrl uiMode w).
Proof.
  cbv zeta. destruct w as [disk main tr].
  split; [| split; [| split]].
  all: apply (by_new_events _ _ (λ c new,
         quits new = 0 ∨ (isFulfilled c = true ∧ quits new = 1))).
  all: unfold_model; abstract_flags.
  all: exec; new_events; first [by left | by right].
Qed.

(** X8. startNormal touches the UI and the console only once all its stages
    have succeeded.  Then it starts the UI exactly when [uiEnabled] is
    truthy; otherwise it hides the dock exactly when [app.dock] exists, and
    prints the landing-page notice exactly when [showUrl] is truthy and a
    server runs. *)
Theorem startNormal_presentation (X : Externals)
    (uiEnabled showUrl uiMode : Js.value) (w : World) :
  let r := startNormal X uiEnabled showUrl uiMode w in
  let new := eventsSince w r.2 in
  let port := httpServer_httpServerPort X in
  let ok := isFulfilled r.1 in
  uiStarts new = (if ok && Js.truthy uiEnabled then [(port, uiMode)] else [])
  ∧ dockHides new =
      (if ok && negb (Js.truthy uiEnabled) && app_dock X then 1 else 0)
  ∧ consoleLines new =
      (if ok && negb (Js.truthy uiEnabled) && Js.truthy showUrl
          && negb (args_noServer X)
       then [landingPageNotice port] else []).
Proof.
  cbv zeta. destruct w as [disk main tr].
  apply (by_new_events _ _ (λ c new,
    uiStarts new = (if isFulfilled c && _ then _ else _)
    ∧ dockHides new = (if isFulfilled c && _ && _ then _ else _)
    ∧ consoleLines new = (if isFulfilled c && _ && _ && _ then _ else _))).
  unfold_model. abstract_flags.
  destruct (args_noServer X), (app_dock X); cbn [negb].
  all: exec; new_events; done.
Qed.

(** X9. What startGeneration prints depends on its [log] option and on
    [zapFile] only, not on how the run goes: with a truthy [log] the
    generation information and then the line naming the input file (or the
    empty configuration), otherwise nothing.  startSdkGeneration prints
    nothing and logs its one info line, whatever its options. *)
Theorem headless_console_output (X : Externals) (w : World)
    (output genTemplateJsonFile zclProperties generationDir : string)
    (zapFile zclPropertiesFilePath : option string)
    (optionsArg : option Js.object) :
  let generation :=
    startGeneration X output genTemplateJsonFile zclProperties zapFile
      optionsArg w in
  let sdk :=
    startSdkGeneration X generationDir zclPropertiesFilePath optionsArg w in
  let log :=
    Js.truthy (Js.get (default startGeneration_defaults optionsArg) "log") in
  (consoleLines (eventsSince w generation.2) =
     (if log
      then [ generationInformation output genTemplateJsonFile zclProperties;
             match zapFile with
             | Some file => "    👉 using input file: " +:+ file
             | None => "    👉 using empty configuration"
             end ]
      else [])
   ∧ infosLogged (eventsSince w generation.2) = [])
  ∧ (consoleLines (eventsSince w sdk.2) = []
     ∧ infosLogged (eventsSince w sdk.2) = ["Start SDK generation..."]).
Proof.
  cbv zeta. destruct w as [disk main tr].
  split.
  all: apply (by_new_events _ _ (λ _ new,
         consoleLines new = _ ∧ infosLogged new = _)).
  all: unfold_model; abstract_flags.
  all: exec; new_events; done.
Qed.

(** ** The input file of a headless generation *)

(** Whatever [zapFile] is, the run is the one with no input file, up to the
    console. *)
Lemma startGeneration_without_zapFile (X : Externals)
    (output genTemplateJsonFile zclProperties : string)
    (zapFile : option string) (optionsArg : option Js.object) (w : World) :
  let r := startGeneration X output genTemplateJsonFile zclProperties zapFile
             optionsArg w in
  let r0 := startGeneration X output genTemplateJsonFile zclProperties None
              optionsArg w in
  r.1 = r0.1
  ∧ fs r.2 = fs r0.2
  ∧ mainDb r.2 = mainDb r0.2
  ∧ withoutConsole (eventsSince w r.2) = withoutConsole (eventsSince w r0.2).
Proof.
  cbv zeta. destruct w as [disk main tr].
  unfold_model. abstract_flags.
  exec; unfold eventsSince; cbn; rewrite <- ?app_assoc, ?drop_app_length.
  all: done.
Qed.

(** X10. startGeneration uses [zapFile] for one console line and nothing
    else: two runs that differ only in [zapFile] end the same way, leave the
    same disk and the same main database, and make the same calls apart from
    what they print. *)
Theorem zapFile_is_only_printed (X : Externals)
    (output genTemplateJsonFile zclProperties : string)
    (zapFile zapFile' : option string) (optionsArg : option Js.object)
    (w : World) :
  let r := startGeneration X output genTemplateJsonFile zclProperties zapFile
             optionsArg w in
  let r' := startGeneration X output genTemplateJsonFile zclProperties
              zapFile' optionsArg w in
  r.1 = r'.1
  ∧ fs r.2 = fs r'.2
  ∧ mainDb r.2 = mainDb r'.2
  ∧ withoutConsole (eventsSince w r.2) = withoutConsole (eventsSince w r'.2).
Proof.
  cbv zeta.
  destruct (startGeneration_without_zapFile X output genTemplateJsonFile
              zclProperties zapFile optionsArg w) as (C & D & M & E).
  destruct (startGeneration_without_zapFile X output genTemplateJsonFile
              zclProperties zapFile' optionsArg w) as (C' & D' & M' & E').
  cbv zeta in *.
  rewrite C, D, M, E, C', D', M', E'. done.
Qed.

(** ** More on moving the main database file away *)

(** Once clearDatabaseFile has returned, no file is at the live path. *)
Lemma clearDatabaseFile_clears_live_path (X : Externals) (w : World) :
  (clearDatabaseFile X w).1 = Resolved () →
  fs (clearDatabaseFile X w).2 !! env_sqliteFile X None = None.
Proof.
  destruct w as [disk main tr]. unfold_model. cbn [fs].
  generalize (backup_path_differs (env_sqliteFile X None)).
  generalize (env_sqliteFile X None). intros path Diff.
  destruct (disk !! path) eqn:Live.
  all: exec; try done; intros _.
  all: by rewrite ?lookup_insert_ne, ?lookup_delete_eq.
Qed.

(** X11. When clearDatabaseFile returns, the live path is empty and the
    backup holds the latest database there was: the content of the live
    file if there was one, else the backup that was already there. *)
Theorem clearDatabaseFile_keeps_latest (X : Externals) (w : World) :
  let path := env_sqliteFile X None in
  let pathBak := path +:+ "~" in
  let r := clearDatabaseFile X w in
  r.1 = Resolved () →
  fs r.2 !! path = None
  ∧ fs r.2 !! pathBak =
      match fs w !! path with
      | Some content => Some content
      | None => fs w !! pathBak
      end.
Proof.
  cbv zeta. destruct w as [disk main tr]. unfold_model. cbn [fs].
  generalize (backup_path_differs (env_sqliteFile X None)).
  generalize (env_sqliteFile X None). intros path Diff.
  destruct (disk !! path) eqn:Live.
  all: exec; try done; intros _.
  all: rewrite ?lookup_insert_ne, ?lookup_delete_eq, ?lookup_insert_eq by done.
  all: rewrite ?lookup_delete_ne in * by done.
  all: split; congruence.
Qed.

Lemma clearDatabaseFile_keeps_latest_witness :
  let w := Demo.boot [("zap.sqlite~", "older")] in
  let r := clearDatabaseFile Demo.healthy w in
  r.1 = Resolved ()
  ∧ fs r.2 !! "zap.sqlite" = None
  ∧ fs r.2 !! "zap.sqlite~" = Some "older".
Proof.
  cbv zeta. split; [vm_compute; reflexivity |].
  apply (clearDatabaseFile_keeps_latest Demo.healthy
           (Demo.boot [("zap.sqlite~", "older")])).
  vm_compute; reflexivity.
Defined.

(** X12. clearDatabaseFile, however it ends, leaves every file other than
    the live file and its backup as it was, and does not touch the main
    database handle. *)
Theorem clearDatabaseFile_frame (X : Externals) (w : World) (other : string) :
  let path := env_sqliteFile X None in
  let r := clearDatabaseFile X w in
  other ≠ path →
  other ≠ path +:+ "~" →
  fs r.2 !! other = fs w !! other ∧ mainDb r.2 = mainDb w.
Proof.
  cbv zeta. destruct w as [disk main tr]. unfold_model. cbn [fs mainDb].
  generalize (env_sqliteFile X None). intros path NotLive NotBackup.
  exec; split; try reflexivity.
  all: by rewrite ?lookup_insert_ne, ?lookup_delete_ne.
Qed.

Lemma clearDatabaseFile_frame_witness :
  let w := Demo.boot [("zap.sqlite", "live"); ("generate.sqlite", "kept")] in
  let r := clearDatabaseFile Demo.healthy w in
  ("generate.sqlite" ≠ "zap.sqlite" ∧ "generate.sqlite" ≠ "zap.sqlite~")
  ∧ fs r.2 !! "generate.sqlite" = Some "kept"
  ∧ mainDb r.2 = None.
Proof.
  cbv zeta. split; [split; discriminate |].
  apply (clearDatabaseFile_frame Demo.healthy
           (Demo.boot [("zap.sqlite", "live"); ("generate.sqlite", "kept")])
           "generate.sqlite"); discriminate.
Defined.

(** X13. The two ways clearDatabaseFile can fail.  When the removal of the
    old backup is refused, the error is thrown and the disk is as it was.
    When the rename is refused, the error is thrown and the live file is
    kept, but an old backup is already gone. *)
Theorem clearDatabaseFile_failures (X : Externals) (w : World) (e : JsError) :
  let path := env_sqliteFile X None in
  let pathBak := path +:+ "~" in
  let r := clearDatabaseFile X w in
  (is_Some (fs w !! path) →
   is_Some (fs w !! pathBak) →
   fs_unlinkFault X pathBak (fs w) = Some e →
   r.1 = Rejected e ∧ fs r.2 = fs w ∧ renames (eventsSince w r.2) = [])
  ∧ (is_Some (fs w !! path) →
     (is_Some (fs w !! pathBak) → fs_unlinkFault X pathBak (fs w) = None) →
     fs_renameFault X path pathBak (delete pathBak (fs w)) = Some e →
     r.1 = Rejected e ∧ fs r.2 = delete pathBak (fs w)).
Proof.
  cbv zeta. destruct w as [disk main tr]. unfold_model. cbn [fs].
  generalize (backup_path_differs (env_sqliteFile X None)).
  generalize (env_sqliteFile X None). intros path Diff.
  split.
  - intros [live Live] [backup Backup] Refused.
    apply (by_new_events _ _ (λ c new, c = _ ∧ _ ∧ renames new = [])).
    cbn. repeat (first [rewrite Live | rewrite Backup | rewrite Refused]; cbn).
    new_events. done.
  - intros [live Live] Removable Refused. cbn. rewrite Live. cbn.
    destruct (disk !! (path +:+ "~")) as [backup |] eqn:Backup; cbn.
    + repeat (first [rewrite Removable by done | rewrite Backup
                    | rewrite Refused]; cbn).
      done.
    + rewrite delete_id in Refused by done. by rewrite Refused, delete_id.
Qed.

Lemma clearDatabaseFile_failures_witness :
  let w := Demo.boot [("zap.sqlite", "live"); ("zap.sqlite~", "older")] in
  let locked := clearDatabaseFile Demo.lockedDisk w in
  let pinned :=
    clearDatabaseFile (withRenameRefused "EXDEV" Demo.healthy) w in
  (locked.1 = Rejected "EPERM" ∧ fs locked.2 = fs w)
  ∧ (pinned.1 = Rejected "EXDEV"
     ∧ fs pinned.2 !! "zap.sqlite" = Some "live"
     ∧ fs pinned.2 !! "zap.sqlite~" = None).
Proof.
  cbv zeta. split.
  - destruct (clearDatabaseFile_failures Demo.lockedDisk
                (Demo.boot [("zap.sqlite", "live"); ("zap.sqlite~", "older")])
                "EPERM") as [Locked _].
    destruct Locked as (T & D & _); [vm_compute; eauto .. |].
    split; [exact T | exact D].
  - destruct (clearDatabaseFile_failures
                (withRenameRefused "EXDEV" Demo.healthy)
                (Demo.boot [("zap.sqlite", "live"); ("zap.sqlite~", "older")])
                "EXDEV") as [_ Pinned].
    destruct Pinned as (T & D); [vm_compute; eauto | reflexivity .. |].
    split; [exact T |]. rewrite D. vm_compute. done.
Defined.

(** ** A database restart *)

(** startNormal opens the main database on whatever is at its path. *)
Lemma startNormal_opens_main_database (X : Externals)
    (uiEnabled showUrl uiMode : Js.value) (w : World) :
  let r := startNormal X uiEnabled showUrl uiMode w in
  openedOn (stagesOf (eventsSince w r.2)) =
    [(env_sqliteFile X None, fs w !! env_sqliteFile X None)].
Proof.
  cbv zeta. destruct w as [disk main tr].
  apply (by_new_events _ _ (λ _ new, openedOn (stagesOf new) = _)).
  unfold_model. abstract_flags.
  exec; new_events; reflexivity.
Qed.

(** X14. After a clearDatabaseFile that returned, the next startNormal
    opens the main database where no file is: the restart begins with a new
    database. *)
Theorem restart_opens_a_new_database (X : Externals)
    (uiEnabled showUrl uiMode : Js.value) (w : World) :
  let cleared := clearDatabaseFile X w in
  let r := startNormal X uiEnabled showUrl uiMode cleared.2 in
  cleared.1 = Resolved () →
  openedOn (stagesOf (eventsSince cleared.2 r.2)) =
    [(env_sqliteFile X None, None)].
Proof.
  cbv zeta. intros Returned.
  rewrite startNormal_opens_main_database.
  by rewrite clearDatabaseFile_clears_live_path.
Qed.

Lemma restart_opens_a_new_database_witness :
  let w := Demo.boot [("zap.sqlite", "live")] in
  let cleared := clearDatabaseFile Demo.healthy w in
  let r := startNormal Demo.healthy (Js.Bool true) Js.Undefined Js.Undefined
             cleared.2 in
  cleared.1 = Resolved ()
  ∧ openedOn (stagesOf (eventsSince cleared.2 r.2)) = [("zap.sqlite", None)]
  ∧ fs r.2 !! "zap.sqlite~" = Some "live".
Proof.
  cbv zeta. split; [vm_compute; reflexivity |].
  split; [| vm_compute; reflexivity].
  apply (restart_opens_a_new_database Demo.healthy (Js.Bool true)
           Js.Undefined Js.Undefined (Demo.boot [("zap.sqlite", "live")])).
  vm_compute; reflexivity.
Defined.
